(** * DreamCard and FocusedDreamView: a shallow embedding

    The two React components of the repository, [DreamCard]
    (src/DreamCard.tsx) and [FocusedDreamView] (src/FocusedDreamView.tsx),
    are embedded as pure functions:

    - a JavaScript number is an IEEE 754 binary64 value, that is a primitive
      [float]; [Math.min], [Math.max], [Math.round] and [indexOf] follow
      ECMA-262;
    - a component is a function from its props and its [useState] cells to
      what it returns: the content it shows and the state of its controls;
    - an event handler is a computation in a small monad that reads the
      values captured by the render, queues state updates, records the
      calls it makes to the outside (callbacks, the Convex mutation and
      action, the console) and may stop the propagation of its event;
    - a click is dispatched along the path from its target to the root of
      the returned tree;
    - in [step] and [run] events are taken one at a time: a handler runs to
      its end, an awaited call included, and the view is rendered again
      before the next event, so that every handler sees the state that the
      previous one left;
    - in the life of a view ([Life]) a render is an event of its own: an
      event that comes before it runs the handlers and the listeners of
      the last render, with the values that they close over. *)

From Stdlib Require Import ZArith Bool List String Floats Uint63 Lia.
Import ListNotations.

Set Warnings "-inexact-float".

Local Open Scope string_scope.
Local Open Scope Z_scope.

(** ** JavaScript numbers *)

Module JS.

Definition number := float.

Definition is_pos_zero (x : number) : bool :=
  match classify x with PZero => true | _ => false end.

Definition is_neg_zero (x : number) : bool :=
  match classify x with NZero => true | _ => false end.

(** [Math.max(a, b)]: NaN when an argument is NaN; the scan starts from
    the first argument and replaces it by the second when the second is
    greater, or is +0 against -0. *)
Definition Math_max (a b : number) : number :=
  if is_nan a || is_nan b then nan
  else if is_pos_zero b && is_neg_zero a then b
  else if (a <? b)%float then b
  else a.

(** [Math.min(a, b)], symmetrically (-0 is below +0). *)
Definition Math_min (a b : number) : number :=
  if is_nan a || is_nan b then nan
  else if is_neg_zero b && is_pos_zero a then b
  else if (b <? a)%float then b
  else a.

(** [Math.round(x)]: [x] itself when it is not finite or already
    integral, else the nearest integer, a tie going towards +infinity.
    The value of a finite [x] is [m * 2^e], signed; the integer is
    computed exactly on [m] and [e]. *)
Definition Math_round (x : number) : number :=
  match Prim2SF x with
  | S754_finite s m e =>
      if 0 <=? e then x
      else
        let d := - e in
        let q := Z.shiftr (Zpos m) d in
        let r := Z.land (Zpos m) (Z.ones d) in
        if r =? 0 then x
        else
          let half := Z.shiftl 1 (d - 1) in
          let away := if s then half <? r else half <=? r in
          let n := if away then q + 1 else q in
          let f := of_uint63 (Uint63.of_Z n) in
          if s then (- f)%float else f
  | _ => x
  end.

(** [xs.indexOf(x)]: the first index whose element is strictly equal
    ([===]) to [x], or -1. On numbers [===] is the IEEE equality. *)
Fixpoint indexOf_from (i : Z) (xs : list number) (x : number) : Z :=
  match xs with
  | [] => -1
  | y :: ys => if (y =? x)%float then i else indexOf_from (i + 1) ys x
  end.

Definition indexOf (xs : list number) (x : number) : Z := indexOf_from 0 xs x.

(** [xs[i]] on an array of numbers. Out of range JavaScript gives
    [undefined], which every later arithmetic operation turns into NaN;
    the array is only read in range here (lemma [nextIndex_in_range]). *)
Definition get (xs : list number) (i : Z) : number :=
  if i <? 0 then nan else nth (Z.to_nat i) xs nan.

(** [xs.findIndex(p)]: the first index whose element satisfies [p],
    or -1. *)
Fixpoint findIndex_from {A : Type} (i : Z) (p : A -> bool) (xs : list A) : Z :=
  match xs with
  | [] => -1
  | y :: ys => if p y then i else findIndex_from (i + 1) p ys
  end.

Definition findIndex {A : Type} (p : A -> bool) (xs : list A) : Z :=
  findIndex_from 0 p xs.

(** [xs.length]. *)
Definition length {A : Type} (xs : list A) : Z := Z.of_nat (List.length xs).

(** [xs[i]] on an array of any kind: [undefined] is [None]. *)
Definition at_index {A : Type} (xs : list A) (i : Z) : option A :=
  if i <? 0 then None else nth_error xs (Z.to_nat i).

(** Truthiness of an optional string: [undefined] and the empty string
    are falsy. *)
Definition truthy (o : option string) : bool :=
  match o with
  | Some s => negb (s =? "")%string
  | None => false
  end.

End JS.

(** ** The data model *)

(** [status?: "pending" | "storified"]. *)
Inductive Status := pending | storified.

(** [analysis?: { title?: string }]. *)
Record Analysis := { title : option string }.

(** The [Dream] type, declared alike in both source files. An [Id<"dreams">]
    is a string. *)
Record Dream := {
  _id : string;
  content : string;
  story : option string;
  status : option Status;
  analysis : option Analysis
}.

(** [dream.status === "pending"]. *)
Definition is_pending (dream : Dream) : bool :=
  match status dream with
  | Some pending => true
  | _ => false
  end.

(** [dream.analysis?.title]. *)
Definition analysis_title (dream : Dream) : option string :=
  match analysis dream with
  | Some a => title a
  | None => None
  end.

(** ** Rendered content *)

(** The fields of a record that a component interpolates as text. *)
Inductive Field := FTitle | FStory | FContent.

(** What a content area holds, in document order. [Interp f s] is a text
    taken from field [f] of the record ([{dream.story}]), [Text s] a text
    of the template itself. *)
Inductive Node :=
| Spinner
| Text (s : string)
| Interp (f : Field) (s : string)
| Textarea (value : string).

Definition is_spinner (n : Node) : bool :=
  match n with Spinner => true | _ => false end.

Definition is_field (f : Field) (n : Node) : bool :=
  match n, f with
  | Interp FTitle _, FTitle | Interp FStory _, FStory
  | Interp FContent _, FContent => true
  | _, _ => false
  end.

Definition shows_loading (ns : list Node) : bool := existsb is_spinner ns.

Definition renders_field (f : Field) (ns : list Node) : bool :=
  existsb (is_field f) ns.

(** The text an optional string renders as: [undefined] renders nothing. *)
Definition interp (f : Field) (o : option string) : list Node :=
  match o with
  | Some s => [Interp f s]
  | None => []
  end.

(** ** DreamCard (src/DreamCard.tsx) *)

(** The clickable content area of the card (lines 47-71). *)
Definition DreamCard (dream : Dream) : list Node :=
  if is_pending dream then
    [Spinner; Text "Generating story..."]
  else if JS.truthy (story dream) || JS.truthy (analysis_title dream) then
    interp FTitle (analysis_title dream)
    ++ (if JS.truthy (story dream) then interp FStory (story dream) else [])
  else
    [Text "Story or analysis data unavailable."].

(** ** FocusedDreamView (src/FocusedDreamView.tsx) *)

(** [onNavigate]'s argument. *)
Inductive Direction := prev | next.

(** The props that carry data; [onClose] and [onNavigate] are callbacks of
    the parent, and a call to one is recorded as an [Effect]. *)
Record Props := {
  focusedDream : Dream;
  allDreams : list Dream
}.

Definition MIN_SCALE : JS.number := 0.5%float.
Definition MAX_SCALE : JS.number := 2.5%float.
Definition ZOOM_LEVELS : list JS.number :=
  [0.5%float; 1.0%float; 1.5%float; 2.0%float; 2.5%float].
Definition SCROLL_SENSITIVITY : JS.number := 0.15%float.

(** The [useState] cells that the handlers write. The cells left out are
    never written ([fontSize], [zoomBarHeightClass]) or only style the
    entrance ([cardMaxHeight], [isAnimatingIn], [isBackdropVisible]). *)
Record State := {
  scale : JS.number;
  zoomPercentage : JS.number;
  isEditing : bool;
  editedContent : string
}.

(** The initial values of the cells (lines 39-43). *)
Definition initial (props : Props) : State := {|
  scale := 1%float;
  zoomPercentage := 100%float;
  isEditing := false;
  editedContent := content (focusedDream props)
|}.

(** *** Navigation availability (lines 34-36) *)

Definition currentIndex (props : Props) : Z :=
  JS.findIndex (fun dream => (_id dream =? _id (focusedDream props))%string)
               (allDreams props).

Definition isFirst (props : Props) : bool := currentIndex props =? 0.

Definition isLast (props : Props) : bool :=
  currentIndex props =? JS.length (allDreams props) - 1.

(** *** The returned tree *)

(** The content of the card (lines 166-210). *)
Definition card_content (props : Props) (st : State) : list Node :=
  let dream := focusedDream props in
  (if is_pending dream then [Spinner; Text "Generating story..."] else [])
  ++ (if negb (is_pending dream) then
        [if JS.truthy (analysis_title dream)
         then Interp FTitle (match analysis_title dream with Some t => t | None => "" end)
         else Text "Dream Details";
         if isEditing st then Textarea (editedContent st)
         else Interp FContent (content dream);
         Text "Generated Story:";
         if JS.truthy (story dream)
         then Interp FStory (match story dream with Some s => s | None => "" end)
         else Text "Story not yet generated or failed."]
      else [])
  ++ (if negb (is_pending dream) && negb (JS.truthy (story dream))
      then [Text "Story generation failed or is not available."]
      else []).

(** What the render shows besides the content of the card: the scale of
    the card's transform and the toolbar (lines 150, 221-302). *)
Record View := {
  card_scale : JS.number;
  card : list Node;
  prev_disabled : bool;
  next_disabled : bool;
  zoom_label : JS.number;
  edit_title : string;
  save_rendered : bool
}.

Definition FocusedDreamView (props : Props) (st : State) : View := {|
  card_scale := scale st;
  card := card_content props st;
  prev_disabled := isFirst props;
  next_disabled := isLast props;
  zoom_label := zoomPercentage st;
  edit_title := if isEditing st then "Cancel Edit" else "Edit Dream";
  save_rendered := isEditing st
|}.

(** *** Calls to the outside *)

Inductive Effect :=
| OnClose
| OnNavigate (direction : Direction)
| UpdateDreamContent (dreamId : string) (new_content : string)
| GenerateStory (dreamId : string)
| ConsoleError (message : string) (error : string)
| UnhandledRejection (error : string).

(** How a promise settles. *)
Inductive Promise := Fulfilled | Rejected (error : string).

(** What a call to an asynchronous function of the Convex client does: it
    throws at once, or returns a promise. *)
Inductive CallResult := Throws (error : string) | Returns (p : Promise).

(** The behaviour of the backend, as the component observes it. *)
Record Env := {
  updateDreamContent_result : string -> string -> CallResult;
  generateStory_result : string -> CallResult
}.

(** *** The handler monad *)

(** What a running handler accumulates: the queued state, whether
    [stopPropagation] and [preventDefault] were called, and the calls
    made. *)
Record Ctx := {
  queued : State;
  stopped : bool;
  prevented : bool;
  calls : list Effect
}.

Inductive Completion (A : Type) :=
| Normal (a : A)
| Throw (error : string).
Arguments Normal {A} a.
Arguments Throw {A} error.

Definition Handler (A : Type) : Type := Ctx -> Completion A * Ctx.

Definition ret {A : Type} (a : A) : Handler A := fun c => (Normal a, c).

Definition bind {A B : Type} (h : Handler A) (k : A -> Handler B) : Handler B :=
  fun c =>
    match h c with
    | (Normal a, c') => k a c'
    | (Throw e, c') => (Throw e, c')
    end.

Declare Scope handler_scope.
Delimit Scope handler_scope with handler.
Notation "x <- h ;; k" := (bind h (fun x => k))
  (at level 61, h at next level, right associativity) : handler_scope.
Notation "h ;; k" := (bind h (fun _ => k))
  (at level 61, right associativity) : handler_scope.
Local Open Scope handler_scope.

Definition update (f : State -> State) : Handler unit :=
  fun c => (Normal tt, {| queued := f (queued c); stopped := stopped c;
                          prevented := prevented c; calls := calls c |}).

Definition perform (e : Effect) : Handler unit :=
  fun c => (Normal tt, {| queued := queued c; stopped := stopped c;
                          prevented := prevented c; calls := calls c ++ [e] |}).

Definition stopPropagation : Handler unit :=
  fun c => (Normal tt, {| queued := queued c; stopped := true;
                          prevented := prevented c; calls := calls c |}).

Definition preventDefault : Handler unit :=
  fun c => (Normal tt, {| queued := queued c; stopped := stopped c;
                          prevented := true; calls := calls c |}).

(** The writes of the four [useState] setters. *)
Definition set_scale (v : JS.number) (s : State) : State :=
  {| scale := v; zoomPercentage := zoomPercentage s;
     isEditing := isEditing s; editedContent := editedContent s |}.

Definition set_zoomPercentage (v : JS.number) (s : State) : State :=
  {| scale := scale s; zoomPercentage := v;
     isEditing := isEditing s; editedContent := editedContent s |}.

Definition set_isEditing (v : bool) (s : State) : State :=
  {| scale := scale s; zoomPercentage := zoomPercentage s;
     isEditing := v; editedContent := editedContent s |}.

Definition set_editedContent (v : string) (s : State) : State :=
  {| scale := scale s; zoomPercentage := zoomPercentage s;
     isEditing := isEditing s; editedContent := v |}.

Definition setScale (v : JS.number) : Handler unit := update (set_scale v).

Definition setZoomPercentage (v : JS.number) : Handler unit :=
  update (set_zoomPercentage v).

Definition setIsEditing (v : bool) : Handler unit := update (set_isEditing v).

Definition setEditedContent (v : string) : Handler unit :=
  update (set_editedContent v).

(** A call expression: the call is recorded, then it throws or gives its
    promise. *)
Definition call (e : Effect) (r : CallResult) : Handler Promise :=
  perform e ;;
  match r with
  | Throws err => fun c => (Throw err, c)
  | Returns p => ret p
  end.

(** [await p]: resumes when [p] is fulfilled, throws its reason when it is
    rejected. *)
Definition await (p : Promise) : Handler unit :=
  match p with
  | Fulfilled => ret tt
  | Rejected err => fun c => (Throw err, c)
  end.

(** An expression statement whose promise is dropped: nobody observes a
    rejection, which the runtime reports as unhandled. *)
Definition discard (p : Promise) : Handler unit :=
  match p with
  | Fulfilled => ret tt
  | Rejected err => perform (UnhandledRejection err)
  end.

(** [try { h } catch (error) { k error }]. *)
Definition try_catch {A : Type} (h : Handler A) (k : string -> Handler A) : Handler A :=
  fun c =>
    match h c with
    | (Normal a, c') => (Normal a, c')
    | (Throw e, c') => k e c'
    end.

Definition console_error (message error : string) : Handler unit :=
  perform (ConsoleError message error).

(** The callbacks of the parent. *)
Definition onClose : Handler unit := perform OnClose.

Definition onNavigate (direction : Direction) : Handler unit :=
  perform (OnNavigate direction).

(** The mutation and the action of the Convex client (lines 52-53). *)
Definition updateDreamContent (env : Env) (dreamId new_content : string)
  : Handler Promise :=
  call (UpdateDreamContent dreamId new_content)
       (updateDreamContent_result env dreamId new_content).

Definition generateStory (env : Env) (dreamId : string) : Handler Promise :=
  call (GenerateStory dreamId) (generateStory_result env dreamId).

(** *** The handlers

    A handler closes over the props and the state of the render that
    created it: it reads [st], and its updates go to the queued state. *)

(** Lines 222 and 233. *)
Definition onClick_navigate (direction : Direction) : Handler unit :=
  stopPropagation ;;
  onNavigate direction.

(** The preset that a click on the zoom control selects (lines 248-250).
    [%] on numbers truncates, as [Z.rem]. *)
Definition nextIndex (s : JS.number) : Z :=
  Z.rem (JS.indexOf ZOOM_LEVELS s + 1) (JS.length ZOOM_LEVELS).

Definition next_preset (s : JS.number) : JS.number :=
  JS.get ZOOM_LEVELS (nextIndex s).

(** Lines 246-253. *)
Definition onClick_zoom (st : State) : Handler unit :=
  stopPropagation ;;
  let newScale := next_preset (scale st) in
  setScale newScale ;;
  setZoomPercentage (JS.Math_round (newScale * 100)%float).

(** The scale after a wheel event (lines 108-109, and again 257-258). *)
Definition wheel_scale (s deltaY : JS.number) : JS.number :=
  let delta := if (deltaY <? 0)%float then SCROLL_SENSITIVITY
               else (- SCROLL_SENSITIVITY)%float in
  JS.Math_max MIN_SCALE (JS.Math_min MAX_SCALE (s + delta)%float).

(** Lines 105-112. The listener is registered on the zoom control itself,
    and registered again after every change of [scale]; the [onWheel] prop
    of the same element (lines 254-261) has the same body, and the root
    listener that would run it is not reached, the propagation being
    stopped here. *)
Definition handleWheel (st : State) (deltaY : JS.number) : Handler unit :=
  preventDefault ;;
  stopPropagation ;;
  let newScale := wheel_scale (scale st) deltaY in
  setScale newScale ;;
  setZoomPercentage (JS.Math_round (newScale * 100)%float).

(** Line 268. *)
Definition onClick_edit (st : State) : Handler unit :=
  stopPropagation ;;
  setIsEditing (negb (isEditing st)).

(** Lines 285-294. The handler is run to its end with the outcome of the
    mutation. *)
Definition onClick_save (env : Env) (props : Props) (st : State) : Handler unit :=
  stopPropagation ;;
  try_catch
    (p <- updateDreamContent env (_id (focusedDream props)) (editedContent st) ;;
     await p ;;
     setIsEditing false)
    (fun error => console_error "Failed to save dream:" error).

(** Lines 305-319. The promise of [generateStory] is not awaited. *)
Definition onClick_regenerate (env : Env) (props : Props) (st : State) : Handler unit :=
  stopPropagation ;;
  (if isEditing st then setIsEditing false else ret tt) ;;
  try_catch
    (p <- generateStory env (_id (focusedDream props)) ;;
     discard p)
    (fun error => console_error "Failed to trigger story regeneration:" error).

(** Line 158. *)
Definition onClick_card : Handler unit := stopPropagation.

(** Line 141. *)
Definition onClick_backdrop : Handler unit := onClose.

(** Line 188. *)
Definition onChange_textarea (value : string) : Handler unit :=
  setEditedContent value.

(** *** The elements of the returned tree and the dispatch of a click *)

(** A button stands for itself and for its icon: the icons have no
    handler, and a click on one goes on to its button. *)
Inductive Element :=
| Backdrop            (* line 138 *)
| Card                (* line 145 *)
| CardInner           (* line 161, and all that it holds *)
| ToolbarsContainer   (* line 217 *)
| MainToolbar         (* line 219 *)
| PrevButton          (* line 221 *)
| NextButton          (* line 232 *)
| ZoomControl         (* line 243 *)
| ZoomLabel           (* line 264 *)
| EditButton          (* line 267 *)
| SaveButton          (* line 284 *)
| RegenerateButton.   (* line 304 *)

Definition parent (e : Element) : option Element :=
  match e with
  | Backdrop => None
  | Card => Some Backdrop
  | CardInner => Some Card
  | ToolbarsContainer => Some Backdrop
  | MainToolbar => Some ToolbarsContainer
  | PrevButton | NextButton | ZoomControl | EditButton | SaveButton
  | RegenerateButton => Some MainToolbar
  | ZoomLabel => Some ZoomControl
  end.

(** The [onClick] prop of an element, if it has one. *)
Definition onClick (env : Env) (props : Props) (st : State) (e : Element)
  : option (Handler unit) :=
  match e with
  | Backdrop => Some onClick_backdrop
  | Card => Some onClick_card
  | PrevButton => Some (onClick_navigate prev)
  | NextButton => Some (onClick_navigate next)
  | ZoomControl => Some (onClick_zoom st)
  | EditButton => Some (onClick_edit st)
  | SaveButton => Some (onClick_save env props st)
  | RegenerateButton => Some (onClick_regenerate env props st)
  | CardInner | ToolbarsContainer | MainToolbar | ZoomLabel => None
  end.

(** The [disabled] prop of an element (lines 223 and 234). *)
Definition disabled (props : Props) (st : State) (e : Element) : bool :=
  match e with
  | PrevButton => prev_disabled (FocusedDreamView props st)
  | NextButton => next_disabled (FocusedDreamView props st)
  | _ => false
  end.

(** The handler that React runs when a click passes an element: its
    [onClick] prop, unless the element is a disabled button. React calls no
    mouse handler of a disabled button, and the click goes on to the
    ancestors of the button: the [stopPropagation] of lines 222 and 233 is
    not run for it. *)
Definition click_listener (env : Env) (props : Props) (st : State) (e : Element)
  : option (Handler unit) :=
  if disabled props st e then None else onClick env props st e.

(** Whether an element is in the tree: the save button is rendered in edit
    mode only (line 283). *)
Definition in_tree (props : Props) (st : State) (e : Element) : bool :=
  match e with
  | SaveButton => save_rendered (FocusedDreamView props st)
  | _ => true
  end.

(** The propagation path of an event, from its target to the root. The
    tree is four levels deep. *)
Fixpoint path_from (fuel : nat) (e : Element) : list Element :=
  e :: match fuel with
       | O => []
       | S fuel' => match parent e with
                    | Some p => path_from fuel' p
                    | None => []
                    end
       end.

Definition path (e : Element) : list Element := path_from 4 e.

(** Bubbling: the handlers on the path run in order, until one has stopped
    the propagation. *)
Fixpoint bubble (hs : list (option (Handler unit))) : Handler unit :=
  match hs with
  | [] => ret tt
  | None :: hs' => bubble hs'
  | Some h :: hs' =>
      h ;;
      fun c => if stopped c then (Normal tt, c) else bubble hs' c
  end.

Definition start (st : State) : Ctx :=
  {| queued := st; stopped := false; prevented := false; calls := [] |}.

(** A click event that reaches React with the target [target]: the state
    that the next render sees and the calls made. *)
Definition click (env : Env) (props : Props) (st : State) (target : Element)
  : State * list Effect :=
  if in_tree props st target then
    let c := snd (bubble (map (click_listener env props st) (path target))
                         (start st)) in
    (queued c, calls c)
  else (st, []).

(** *** The effect on the focused dream (lines 79-82)

    It runs after a render in which [content] or [_id] differs from the
    previous render. *)
Definition sync_edited_content (props : Props) : Handler unit :=
  setEditedContent (content (focusedDream props)) ;;
  setIsEditing false.

(** *** Events *)

Inductive Event :=
| Click (target : Element)
| Wheel (deltaY : JS.number)     (* over the zoom control *)
| Change (value : string)        (* typing in the text area *)
| Rerender (props' : Props).     (* the parent passes new props *)

(** The text area is in the tree in edit mode, for a dream that is not
    pending (lines 173, 185). *)
Definition textarea_rendered (props : Props) (st : State) : bool :=
  existsb (fun n => match n with Textarea _ => true | _ => false end)
          (card (FocusedDreamView props st)).

Definition run_handler (h : Handler unit) (st : State) : State * list Effect :=
  let c := snd (h (start st)) in (queued c, calls c).

Definition step (env : Env) (ps : Props * State) (ev : Event)
  : (Props * State) * list Effect :=
  let (props, st) := ps in
  match ev with
  | Click target =>
      let (st', effs) := click env props st target in ((props, st'), effs)
  | Wheel deltaY =>
      let (st', effs) := run_handler (handleWheel st deltaY) st in
      ((props, st'), effs)
  | Change value =>
      if textarea_rendered props st then
        let (st', effs) := run_handler (onChange_textarea value) st in
        ((props, st'), effs)
      else ((props, st), [])
  | Rerender props' =>
      if (content (focusedDream props') =? content (focusedDream props))%string
         && (_id (focusedDream props') =? _id (focusedDream props))%string
      then ((props', st), [])
      else
        let (st', effs) := run_handler (sync_edited_content props') st in
        ((props', st'), effs)
  end.

(** A mounted view taken through a sequence of events. *)
Fixpoint run (env : Env) (ps : Props * State) (evs : list Event)
  : (Props * State) * list Effect :=
  match evs with
  | [] => (ps, [])
  | ev :: evs' =>
      let (ps', effs) := step env ps ev in
      let (ps'', effs') := run env ps' evs' in
      (ps'', (effs ++ effs')%list)
  end.

Definition mount (props : Props) : Props * State := (props, initial props).

(** *** The scroll lock (lines 56-65) *)

(** The three inline style properties of [document.body] that the effect
    writes. *)
Record BodyStyle := {
  overflow : string;
  position : string;
  width : string
}.

(** The effect, run on mount. *)
Definition lock_scroll (body : BodyStyle) : BodyStyle :=
  {| overflow := "hidden"; position := "fixed"; width := "100%" |}.

(** Its cleanup, run on unmount. *)
Definition unlock_scroll (body : BodyStyle) : BodyStyle :=
  {| overflow := "unset"; position := ""; width := "" |}.

(** The page: the style of its body, and the focused view when one is
    mounted. *)
Record Page := {
  body : BodyStyle;
  view : option (Props * State)
}.

Definition mount_view (props : Props) (page : Page) : Page :=
  {| body := lock_scroll (body page); view := Some (mount props) |}.

Definition unmount_view (page : Page) : Page :=
  {| body := unlock_scroll (body page); view := None |}.

(** The events of the view leave the body alone: no handler writes it. *)
Definition page_step (env : Env) (page : Page) (ev : Event) : Page :=
  match view page with
  | Some ps => {| body := body page; view := Some (fst (step env ps ev)) |}
  | None => page
  end.

Definition page_run (env : Env) (page : Page) (evs : list Event) : Page :=
  fold_left (page_step env) evs page.

(** A page with no focused view. *)
Definition closed_page (style : BodyStyle) : Page :=
  {| body := style; view := None |}.

(** ** Predicates of the statements *)

(** The closed interval of the zoom scale. *)
Definition in_range (s : JS.number) : bool :=
  (MIN_SCALE <=? s)%float && (s <=? MAX_SCALE)%float.

(** [x] brought into the interval, as lines 109 and 258 write it. *)
Definition clamp (x : JS.number) : JS.number :=
  JS.Math_max MIN_SCALE (JS.Math_min MAX_SCALE x).


(** The focused record is the element of index [i] of the list. *)
Definition focused_at (props : Props) (i : Z) : Prop :=
  exists dream, JS.at_index (allDreams props) i = Some dream
                /\ _id dream = _id (focusedDream props).

(** The elements whose click reaches the handler of the zoom control. *)
Definition zooms (target : Element) : bool :=
  match target with ZoomControl | ZoomLabel => true | _ => false end.

(** The failure of a call, with its reason: a throw or a rejection. *)
Definition failure (r : CallResult) : option string :=
  match r with
  | Throws err | Returns (Rejected err) => Some err
  | Returns Fulfilled => None
  end.

(** The buffer of the text area holds the content of the focused record. *)
Definition seeded (ps : Props * State) : Prop :=
  editedContent (snd ps) = content (focusedDream (fst ps)).

Definition is_change (ev : Event) : bool :=
  match ev with Change _ => true | _ => false end.

(** The two containers of the toolbar, around its controls. *)
Definition toolbar_containers : list Element := [ToolbarsContainer; MainToolbar].

(** The controls that cannot be disabled, and the body of the card. *)
Definition stopping_controls : list Element :=
  [ZoomControl; ZoomLabel; EditButton; SaveButton; RegenerateButton; Card;
   CardInner].

(** The style of the body while a focused view is mounted. *)
Definition locked_style : BodyStyle :=
  {| overflow := "hidden"; position := "fixed"; width := "100%" |}.

(** The inline style that the cleanup of the scroll lock leaves. *)
Definition reset_style : BodyStyle :=
  {| overflow := "unset"; position := ""; width := "" |}.

(** ** Sample inputs *)

Definition a_pending_dream : Dream :=
  {| _id := "d1"; content := "I was flying";
     story := Some "Once upon a time";
     status := Some pending;
     analysis := Some {| title := Some "Flight" |} |}.

Definition a_dream : Dream :=
  {| _id := "d2"; content := "A long corridor";
     story := Some "The corridor had no end";
     status := Some storified;
     analysis := Some {| title := Some "Corridor" |} |}.

Definition a_bare_dream : Dream :=
  {| _id := "d3"; content := "Rain"; story := None; status := None; analysis := None |}.

Definition three_dreams : list Dream := [a_pending_dream; a_dream; a_bare_dream].

Definition some_props : Props := {| focusedDream := a_dream; allDreams := three_dreams |}.

Definition last_of_three : Props :=
  {| focusedDream := a_bare_dream; allDreams := three_dreams |}.

(** A focused view that is given no list of records. *)
Definition no_dreams : Props := {| focusedDream := a_dream; allDreams := [] |}.

(** A backend whose calls succeed, and one whose promises are rejected. *)
Definition quiet_env : Env :=
  {| updateDreamContent_result := fun _ _ => Returns Fulfilled;
     generateStory_result := fun _ => Returns Fulfilled |}.

Definition failing_env : Env :=
  {| updateDreamContent_result := fun _ _ => Returns (Rejected "network error");
     generateStory_result := fun _ => Returns (Rejected "network error") |}.

Definition with_scale (s : JS.number) : State :=
  {| scale := s; zoomPercentage := JS.Math_round (s * 100)%float;
     isEditing := false; editedContent := "A long corridor" |}.

Definition editing (text : string) : State :=
  {| scale := 1%float; zoomPercentage := 100%float;
     isEditing := true; editedContent := text |}.

(** Edit, type, cancel, edit again. *)
Definition reopen_after_typing : list Event :=
  [Click EditButton; Change "A short corridor"; Click EditButton; Click EditButton].

(** A page that scrolls in a positioned body. *)
Definition page_style : BodyStyle :=
  {| overflow := "auto"; position := "relative"; width := "80%" |}.


(** * What the properties of the specification leave out *)

(** ** The scales that a view can reach *)

(** The scales that one event can make of [s]: a wheel-up, a wheel-down, a
    click on the zoom control. *)
Definition scale_successors (s : JS.number) : list JS.number :=
  [wheel_scale s (-1)%float; wheel_scale s 1%float; next_preset s].

(** Membership up to [Object.is], the equality of the bits. *)
Definition mem_number (x : JS.number) (xs : list JS.number) : bool :=
  existsb (PrimFloat.Leibniz.eqb x) xs.

Definition add_number (x : JS.number) (xs : list JS.number) : list JS.number :=
  if mem_number x xs then xs else xs ++ [x].

(** [fuel] rounds of successors from the scales [xs]. *)
Fixpoint scale_closure (fuel : nat) (xs : list JS.number) : list JS.number :=
  match fuel with
  | O => xs
  | S fuel' =>
      scale_closure fuel' (fold_left (fun acc x => add_number x acc)
                                      (flat_map scale_successors xs) xs)
  end.

(** The scales reached from the initial scale: 73 numbers. *)
Definition reachable_scales : list JS.number :=
  Eval vm_compute in scale_closure 40 [1%float].

(** A non-negative integer as a number. *)
Definition number_of_Z (z : Z) : JS.number := of_uint63 (Uint63.of_Z z).

(** The labels 50, 55, ... 250. *)
Definition percent_labels : list JS.number :=
  map (fun k => number_of_Z (5 * Z.of_nat k)) (seq 10 41).


(** An event that may write the edit buffer: typing, and new props that
    change the identifier or the content of the focused record. *)
Definition writes_buffer (props : Props) (ev : Event) : bool :=
  match ev with
  | Change _ => true
  | Rerender props' =>
      negb ((content (focusedDream props') =? content (focusedDream props))%string
            && (_id (focusedDream props') =? _id (focusedDream props))%string)
  | _ => false
  end.

(** The targets from which a click reaches the handler of the backdrop:
    the backdrop, the containers of the toolbar, and an arrow while it is
    disabled. *)
Definition reaches_backdrop (props : Props) (target : Element) : bool :=
  match target with
  | Backdrop | ToolbarsContainer | MainToolbar => true
  | PrevButton => isFirst props
  | NextButton => isLast props
  | _ => false
  end.

(** The clicks of a sequence of events that reach the backdrop; the props
    are those of the last [Rerender] before the click. *)
Fixpoint closing_clicks (props : Props) (evs : list Event) : nat :=
  match evs with
  | [] => 0
  | Click target :: evs' =>
      (if reaches_backdrop props target then 1 else 0) + closing_clicks props evs'
  | Rerender props' :: evs' => closing_clicks props' evs'
  | _ :: evs' => closing_clicks props evs'
  end.

Definition is_close (e : Effect) : bool :=
  match e with OnClose => true | _ => false end.

(** The label is the rounded percentage of the scale. *)
Definition mirrored (st : State) : Prop :=
  zoomPercentage st = JS.Math_round (scale st * 100)%float.

(** [n] clicks on the zoom control. *)
Definition zoom_clicks (n : nat) : list Event := repeat (Click ZoomControl) n.


(** The two writes of a zooming handler. *)
Definition with_zoom (s : JS.number) (st : State) : State :=
  set_zoomPercentage (JS.Math_round (s * 100)%float) (set_scale s st).

(** Two props focus the same record with the same content. *)
Definition same_record (props props' : Props) : Prop :=
  _id (focusedDream props') = _id (focusedDream props)
  /\ content (focusedDream props') = content (focusedDream props).

(** ** DreamCard: its elements and their clicks (src/DreamCard.tsx) *)

Inductive CardElement :=
| CardRoot        (* line 26 *)
| DeleteButton    (* line 31 *)
| DeleteIcon      (* line 36, inside the button *)
| CardHeader      (* line 42 *)
| CardContent     (* line 47 *)
| CardContentChild. (* lines 48-70, what the content area holds *)

(** The calls to the callbacks [onDelete] and [onFocus] of the props. *)
Inductive CardCall :=
| OnDelete (id : string)
| OnFocus.

Definition card_parent (e : CardElement) : option CardElement :=
  match e with
  | CardRoot => None
  | DeleteButton | CardHeader | CardContent => Some CardRoot
  | DeleteIcon => Some DeleteButton
  | CardContentChild => Some CardContent
  end.

(** The [onClick] props (lines 32 and 47); no handler of the card stops
    the propagation. *)
Definition card_onClick (dream : Dream) (e : CardElement) : list CardCall :=
  match e with
  | DeleteButton => [OnDelete (_id dream)]
  | CardContent => [OnFocus]
  | _ => []
  end.

Fixpoint card_path_from (fuel : nat) (e : CardElement) : list CardElement :=
  e :: match fuel with
       | O => []
       | S fuel' => match card_parent e with
                    | Some p => card_path_from fuel' p
                    | None => []
                    end
       end.

(** A click on an element of the card: the calls made while it bubbles. *)
Definition card_click (dream : Dream) (target : CardElement) : list CardCall :=
  flat_map (card_onClick dream) (card_path_from 2 target).

(** The class of the root (line 28). *)
Definition card_className (isHidden : bool) : string :=
  "relative bg-white rounded-xl p-6 shadow-md overflow-hidden border border-border-grey "
  ++ (if isHidden then "invisible" else "transition-all duration-300").

(** The texts of the template that stand for missing data. *)
Definition card_fallback : Node := Text "Story or analysis data unavailable.".
Definition story_missing : Node := Text "Story not yet generated or failed.".
Definition story_failed : Node := Text "Story generation failed or is not available.".


(** ** The life of a focused view: renders, effects, timers and listeners

    React renders a view some time after an update was queued, and runs
    the effects after the render. Until then the tree, its handlers and
    the native wheel listener are those of the last render. *)

(** The two cells that the timers of the entrance set (lines 48-49). *)
Inductive Flag := BackdropVisible | AnimatingIn.

(** A pending [setTimeout], by its identifier and the cell it sets. *)
Record Timeout := { timeout_id : nat; timeout_sets : Flag }.

(** A [handleWheel] registered on the zoom control: a function value, told
    from the others by an identifier, and the [scale] that it closes
    over. *)
Record WheelListener := { listener_id : nat; captured_scale : JS.number }.

(** What the browser holds for the view: the pending timeouts, the resize
    listeners of the window, the wheel listeners of the zoom control, and
    the next fresh identifier. *)
Record Browser := {
  timeouts : list Timeout;
  resize_listeners : list nat;
  wheel_listeners : list WheelListener;
  next_id : nat
}.

Definition setTimeout (flag : Flag) (b : Browser) : nat * Browser :=
  (next_id b,
   {| timeouts := timeouts b ++ [{| timeout_id := next_id b; timeout_sets := flag |}];
      resize_listeners := resize_listeners b;
      wheel_listeners := wheel_listeners b;
      next_id := S (next_id b) |}).

Definition clearTimeout (id : nat) (b : Browser) : Browser :=
  {| timeouts := filter (fun t => negb (timeout_id t =? id)%nat) (timeouts b);
     resize_listeners := resize_listeners b;
     wheel_listeners := wheel_listeners b;
     next_id := next_id b |}.

Definition addResizeListener (b : Browser) : nat * Browser :=
  (next_id b,
   {| timeouts := timeouts b;
      resize_listeners := resize_listeners b ++ [next_id b];
      wheel_listeners := wheel_listeners b;
      next_id := S (next_id b) |}).

Definition removeResizeListener (id : nat) (b : Browser) : Browser :=
  {| timeouts := timeouts b;
     resize_listeners := filter (fun k => negb (k =? id)%nat) (resize_listeners b);
     wheel_listeners := wheel_listeners b;
     next_id := next_id b |}.

(** The function [handleWheel] of one run of the wheel effect (line 105),
    registered when the ref of the zoom control is set (lines 114-116). *)
Definition addWheelListener (ref_set : bool) (s : JS.number) (b : Browser)
  : nat * Browser :=
  (next_id b,
   {| timeouts := timeouts b;
      resize_listeners := resize_listeners b;
      wheel_listeners :=
        if ref_set
        then wheel_listeners b ++ [{| listener_id := next_id b; captured_scale := s |}]
        else wheel_listeners b;
      next_id := S (next_id b) |}).

(** The cleanup of the wheel effect (lines 118-122). *)
Definition removeWheelListener (ref_set : bool) (id : nat) (b : Browser) : Browser :=
  {| timeouts := timeouts b;
     resize_listeners := resize_listeners b;
     wheel_listeners :=
       if ref_set
       then filter (fun k => negb (listener_id k =? id)%nat) (wheel_listeners b)
       else wheel_listeners b;
     next_id := next_id b |}.

(** The cells of the entrance (lines 47-49). *)
Record Entrance := {
  isBackdropVisible : bool;
  isAnimatingIn : bool;
  cardMaxHeight : option JS.number
}.

Definition set_flag (flag : Flag) (v : bool) (e : Entrance) : Entrance :=
  match flag with
  | BackdropVisible =>
      {| isBackdropVisible := v; isAnimatingIn := isAnimatingIn e;
         cardMaxHeight := cardMaxHeight e |}
  | AnimatingIn =>
      {| isBackdropVisible := isBackdropVisible e; isAnimatingIn := v;
         cardMaxHeight := cardMaxHeight e |}
  end.

(** [calculateMaxHeight] (lines 87-93). *)
Definition calculateMaxHeight (ref_set : bool) (innerHeight : JS.number)
           (e : Entrance) : Entrance :=
  if ref_set then
    {| isBackdropVisible := isBackdropVisible e; isAnimatingIn := isAnimatingIn e;
       cardMaxHeight := Some (innerHeight * 0.85)%float |}
  else e.

(** What the cleanups of the effects hold on to. *)
Record Handles := {
  backdrop_timer : nat;
  animation_timer : nat;
  resize_handler : nat;
  wheel_handler : nat
}.

(** A view in its page: the props and the state with the updates queued
    so far, while it is mounted; the state that the last render saw, which
    the handlers of the elements close over; the cells of the entrance, the
    browser, the handles of the cleanups, the calls made so far, and the
    number of state updates attempted after the unmount. *)
Record Life := {
  current : option (Props * State);
  rendered : State;
  entrance : Entrance;
  browser : Browser;
  handles : Handles;
  log : list Effect;
  late_updates : nat
}.

(** The effects of the first commit, in the order of the source: the
    backdrop timer (lines 68-71), the maximal height and the resize
    listener (lines 95-96), the wheel listener (lines 114-116), the
    animation timer (lines 126-129). The refs are set when they run. The
    scroll lock is in [mount_view], and the effect on the focused dream
    rewrites the values that the cells already hold. *)
Definition life_mount (props : Props) (innerHeight : JS.number) : Life :=
  let b0 := {| timeouts := []; resize_listeners := []; wheel_listeners := [];
               next_id := 0 |} in
  let (t1, b1) := setTimeout BackdropVisible b0 in
  let (r, b2) := addResizeListener b1 in
  let (w, b3) := addWheelListener true (scale (initial props)) b2 in
  let (t2, b4) := setTimeout AnimatingIn b3 in
  {| current := Some (mount props);
     rendered := initial props;
     entrance :=
       calculateMaxHeight true innerHeight
         {| isBackdropVisible := false; isAnimatingIn := false;
            cardMaxHeight := None |};
     browser := b4;
     handles := {| backdrop_timer := t1; animation_timer := t2;
                   resize_handler := r; wheel_handler := w |};
     log := [];
     late_updates := 0 |}.

(** A click on the tree of the last render: the tree and its handlers are
    those of the state [seen] that the render saw, and the updates go to
    the queued state [st]. *)
Definition dispatch_click (env : Env) (props : Props) (seen st : State)
           (target : Element) : State * list Effect :=
  if in_tree props seen target then
    let c := snd (bubble (map (click_listener env props seen) (path target))
                         (start st)) in
    (queued c, calls c)
  else (st, []).

(** A wheel event over the zoom control: every registered listener runs,
    each with the scale it closes over, and stops the event before it
    reaches React; with none registered the event reaches the [onWheel]
    prop, which has the scale of the last render. *)
Definition dispatch_wheel (seen st : State) (deltaY : JS.number)
           (listeners : list WheelListener) : State :=
  match listeners with
  | [] => fst (run_handler (handleWheel seen deltaY) st)
  | _ =>
      fold_left
        (fun acc k =>
           fst (run_handler
                  (handleWheel (set_scale (captured_scale k) seen) deltaY) acc))
        listeners st
  end.

(** The wheel effect after a render (lines 104-123): when [scale] is not
    the [scale] of the previous render, up to [Object.is], the cleanup of
    the previous run removes its listener and the effect registers a new
    one. *)
Definition commit_wheel (old new : JS.number) (h : Handles) (b : Browser)
  : Handles * Browser :=
  if PrimFloat.Leibniz.eqb old new then (h, b)
  else
    let (w, b') := addWheelListener true new
                     (removeWheelListener true (wheel_handler h) b) in
    ({| backdrop_timer := backdrop_timer h; animation_timer := animation_timer h;
        resize_handler := resize_handler h; wheel_handler := w |}, b').

Inductive LifeEvent :=
| UI (ev : Event)                       (* an event of the view *)
| Render                                (* React renders the queued state *)
| TimeoutFires (id : nat)               (* the browser runs a timeout *)
| WindowResize (innerHeight : JS.number)
| Unmount (zoom_ref_set : bool).        (* the parent removes the view; whether
                                           the ref of the zoom control is still
                                           set when the cleanups run *)

(** A click, a wheel event or typing between two renders: the handlers are
    those of the last render, and no effect runs before the next one. *)
Definition handle (env : Env) (props : Props) (seen st : State) (b : Browser)
           (ev : Event) : State * list Effect :=
  match ev with
  | Click target => dispatch_click env props seen st target
  | Wheel deltaY => (dispatch_wheel seen st deltaY (wheel_listeners b), [])
  | Change value =>
      if textarea_rendered props seen
      then run_handler (onChange_textarea value) st
      else (st, [])
  | Rerender _ => (st, [])  (* new props are a render: see [render] *)
  end.

(** A render of the view with the props [props'], and the commit that
    follows. The render takes the queued state whole, and the handlers of
    the new tree close over it. Then the effects whose dependencies have
    changed since the previous render run: the wheel effect on [scale]
    (lines 104-123), and the effect on the content and the identifier of
    the focused dream (lines 79-82), whose updates wait for the next
    render. *)
Definition render (props' : Props) (l : Life) : Life :=
  match current l with
  | Some (props, st) =>
      let (h, b) := commit_wheel (scale (rendered l)) (scale st)
                                 (handles l) (browser l) in
      let st' :=
        if (content (focusedDream props') =? content (focusedDream props))%string
           && (_id (focusedDream props') =? _id (focusedDream props))%string
        then st
        else fst (run_handler (sync_edited_content props') st) in
      {| current := Some (props', st'); rendered := st; entrance := entrance l;
         browser := b; handles := h; log := log l;
         late_updates := late_updates l |}
  | None => l
  end.

Definition life_step (env : Env) (l : Life) (ev : LifeEvent) : Life :=
  match ev with
  | UI (Rerender props') => render props' l
  | UI ev =>
      match current l with
      | Some (props, st) =>
          let (st', effs) := handle env props (rendered l) st (browser l) ev in
          {| current := Some (props, st'); rendered := rendered l;
             entrance := entrance l; browser := browser l; handles := handles l;
             log := log l ++ effs; late_updates := late_updates l |}
      | None => l
      end
  | Render =>
      match current l with
      | Some (props, _) => render props l
      | None => l
      end
  | TimeoutFires id =>
      match find (fun t => (timeout_id t =? id)%nat) (timeouts (browser l)) with
      | Some t =>
          {| current := current l;
             rendered := rendered l;
             entrance := match current l with
                         | Some _ => set_flag (timeout_sets t) true (entrance l)
                         | None => entrance l
                         end;
             browser := clearTimeout id (browser l);
             handles := handles l;
             log := log l;
             late_updates := match current l with
                             | Some _ => late_updates l
                             | None => S (late_updates l)
                             end |}
      | None => l
      end
  | WindowResize innerHeight =>
      {| current := current l;
         rendered := rendered l;
         entrance :=
           fold_left
             (fun e _ =>
                calculateMaxHeight (match current l with Some _ => true | None => false end)
                                   innerHeight e)
             (resize_listeners (browser l)) (entrance l);
         browser := browser l; handles := handles l; log := log l;
         late_updates := late_updates l |}
  | Unmount zoom_ref_set =>
      match current l with
      | Some _ =>
          {| current := None;
             rendered := rendered l;
             entrance := set_flag AnimatingIn false
                           (set_flag BackdropVisible false (entrance l));
             browser :=
               clearTimeout (animation_timer (handles l))
                 (removeWheelListener zoom_ref_set (wheel_handler (handles l))
                    (removeResizeListener (resize_handler (handles l))
                       (clearTimeout (backdrop_timer (handles l)) (browser l))));
             handles := handles l; log := log l; late_updates := late_updates l |}
      | None => l
      end
  end.

Definition life_run (env : Env) (l : Life) (evs : list LifeEvent) : Life :=
  fold_left (life_step env) evs l.

(** The events of the view among the events of its life. *)
Fixpoint ui_events (evs : list LifeEvent) : list Event :=
  match evs with
  | [] => []
  | UI ev :: evs' => ev :: ui_events evs'
  | _ :: evs' => ui_events evs'
  end.

Definition is_unmount (ev : LifeEvent) : bool :=
  match ev with Unmount _ => true | _ => false end.

Definition fires (id : nat) (ev : LifeEvent) : bool :=
  match ev with TimeoutFires id' => (id' =? id)%nat | _ => false end.

(** The height of the viewport at the last resize, [h] when there was
    none. *)
Fixpoint last_height (h : JS.number) (evs : list LifeEvent) : JS.number :=
  match evs with
  | [] => h
  | WindowResize h' :: evs' => last_height h' evs'
  | _ :: evs' => last_height h evs'
  end.

(** Whether an update waits for a render after [ev]: the handlers of the
    view queue updates, and so may the effect that new props run. *)
Definition waits_for_render (pending : bool) (ev : LifeEvent) : bool :=
  match ev with
  | UI _ => true
  | Render => false
  | _ => pending
  end.

(** Whether [ev] finds the handlers of the state it acts on: a click, a
    wheel event or typing does when no update waits for a render. *)
Definition finds_fresh_handlers (pending : bool) (ev : LifeEvent) : bool :=
  match ev with
  | UI (Rerender _) => true
  | UI _ => negb pending
  | _ => true
  end.

(** The view is rendered between any two of its events. *)
Fixpoint rendered_in_time (pending : bool) (evs : list LifeEvent) : bool :=
  match evs with
  | [] => true
  | ev :: evs' =>
      finds_fresh_handlers pending ev
      && rendered_in_time (waits_for_render pending ev) evs'
  end.

(** The view is mounted with exactly its two listeners, the wheel listener
    closing over the scale of the last render, and with the timers of the
    flags that are still unset. *)
Definition well_registered (l : Life) : Prop :=
  exists ps,
    current l = Some ps
    /\ wheel_listeners (browser l)
       = [{| listener_id := wheel_handler (handles l);
             captured_scale := scale (rendered l) |}]
    /\ resize_listeners (browser l) = [resize_handler (handles l)]
    /\ timeouts (browser l)
       = ((if isBackdropVisible (entrance l) then []
           else [{| timeout_id := backdrop_timer (handles l);
                    timeout_sets := BackdropVisible |}])
          ++ (if isAnimatingIn (entrance l) then []
              else [{| timeout_id := animation_timer (handles l);
                       timeout_sets := AnimatingIn |}]))%list
    /\ backdrop_timer (handles l) <> animation_timer (handles l)
    /\ late_updates l = 0%nat.

Definition is_rerender (ev : Event) : bool :=
  match ev with Rerender _ => true | _ => false end.

Definition is_edit_click (ev : Event) : bool :=
  match ev with Click EditButton => true | _ => false end.

Definition is_regenerate_click (ev : Event) : bool :=
  match ev with Click RegenerateButton => true | _ => false end.

Definition is_navigate (d : Direction) (e : Effect) : bool :=
  match e, d with
  | OnNavigate prev, prev | OnNavigate next, next => true
  | _, _ => false
  end.

Definition is_mutation (e : Effect) : bool :=
  match e with UpdateDreamContent _ _ => true | _ => false end.

Definition is_generate (e : Effect) : bool :=
  match e with GenerateStory _ => true | _ => false end.
(** * Facts about numbers *)

(** ** Comparison *)


Lemma ltb_leb (x y : float) : (x <? y)%float = true -> (x <=? y)%float = true.
Proof.
  rewrite FloatAxioms.ltb_spec, FloatAxioms.leb_spec. unfold SFltb, SFleb.
  destruct (SFcompare _ _) as [[]|]; congruence.
Qed.



Lemma is_nan_Prim2SF (x : float) : is_nan x = true <-> Prim2SF x = S754_nan.
Proof.
  unfold is_nan. rewrite FloatAxioms.eqb_spec. unfold SFeqb.
  destruct (Prim2SF x) as [s|s| |s m e]; simpl.
  - split; discriminate.
  - destruct s; split; discriminate.
  - split; reflexivity.
  - destruct s; rewrite Z.compare_refl, Pos.compare_cont_refl; simpl; split; discriminate.
Qed.

(** ** Rounding never yields NaN from a mantissa that is not negative *)

Lemma shr_1_nonneg (mrs : shr_record) : 0 <= shr_m mrs -> 0 <= shr_m (shr_1 mrs).
Proof.
  destruct mrs as [m r s]; simpl. destruct m as [|p|p]; simpl; try lia;
    destruct p; simpl; lia.
Qed.

Lemma iter_shr_1_nonneg (p : positive) (mrs : shr_record) :
  0 <= shr_m mrs -> 0 <= shr_m (iter_pos shr_1 p mrs).
Proof.
  revert mrs. induction p as [p IH|p IH|]; intros mrs H; simpl.
  - apply IH, IH, shr_1_nonneg, H.
  - apply IH, IH, H.
  - apply shr_1_nonneg, H.
Qed.

Lemma shr_fexp_nonneg (prec emax m e : Z) (l : location) :
  0 <= m -> 0 <= shr_m (fst (shr_fexp prec emax m e l)).
Proof.
  intros H. unfold shr_fexp, shr.
  assert (H0 : 0 <= shr_m (shr_record_of_loc m l)).
  { destruct l as [|[]]; simpl; exact H. }
  destruct (fexp prec emax (Zdigits2 m + e) - e); simpl; try exact H0.
  apply iter_shr_1_nonneg, H0.
Qed.

Lemma round_nearest_even_nonneg (m : Z) (l : location) :
  0 <= m -> 0 <= round_nearest_even m l.
Proof.
  intros H. destruct l as [|[]]; simpl; try lia.
  destruct (Z.even m); lia.
Qed.

Lemma binary_round_aux_not_nan (prec emax : Z) (sx : bool) (mx ex : Z) (lx : location) :
  0 <= mx -> binary_round_aux prec emax sx mx ex lx <> S754_nan.
Proof.
  intros H. unfold binary_round_aux.
  pose proof (shr_fexp_nonneg prec emax mx ex lx H) as H1.
  destruct (shr_fexp prec emax mx ex lx) as [mrs' e']. simpl in H1.
  pose proof (shr_fexp_nonneg prec emax _ e' loc_Exact
                (round_nearest_even_nonneg _ (loc_of_shr_record mrs') H1)) as H2.
  destruct (shr_fexp prec emax _ e' loc_Exact) as [mrs'' e'']. simpl in H2.
  destruct (shr_m mrs'') as [|p|p]; try discriminate; try lia.
  destruct (e'' <=? emax - prec); discriminate.
Qed.

Lemma binary_normalize_not_nan (prec emax m e : Z) (szero : bool) :
  binary_normalize prec emax m e szero <> S754_nan.
Proof.
  unfold binary_normalize, binary_round. destruct m as [|p|p]; try discriminate.
  - destruct (shl_align _ _ _) as [mz ez]. apply binary_round_aux_not_nan. lia.
  - destruct (shl_align _ _ _) as [mz ez]. apply binary_round_aux_not_nan. lia.
Qed.

Lemma SFadd_finite_not_nan (prec emax : Z) (x : spec_float) (s : bool) (m : positive) (e : Z) :
  x <> S754_nan -> SFadd prec emax x (S754_finite s m e) <> S754_nan.
Proof.
  intros H. destruct x as [sx|sx| |sx mx ex]; simpl; try discriminate; try congruence.
  apply binary_normalize_not_nan.
Qed.

Lemma add_finite_not_nan (x y : float) (s : bool) (m : positive) (e : Z) :
  Prim2SF y = S754_finite s m e -> is_nan x = false -> is_nan (x + y)%float = false.
Proof.
  intros Hy Hx.
  destruct (is_nan (x + y)%float) eqn:E; [|reflexivity].
  apply is_nan_Prim2SF in E. rewrite FloatAxioms.add_spec, Hy in E.
  exfalso. revert E. apply SFadd_finite_not_nan.
  intros Hn. apply is_nan_Prim2SF in Hn. congruence.
Qed.




Lemma leb_not_nan_r (x y : float) : (x <=? y)%float = true -> is_nan y = false.
Proof.
  rewrite FloatAxioms.leb_spec. intros H.
  destruct (is_nan y) eqn:E; [|reflexivity].
  apply is_nan_Prim2SF in E. rewrite E in H. unfold SFleb in H.
  destruct (Prim2SF x); discriminate.
Qed.



Lemma in_range_not_nan (s : JS.number) : in_range s = true -> is_nan s = false.
Proof.
  unfold in_range. intros H. apply andb_prop in H. destruct H as [H _].
  exact (leb_not_nan_r _ _ H).
Qed.

Lemma clamp_unfold (x : JS.number) :
  is_nan x = false ->
  clamp x = if (x <? MAX_SCALE)%float
            then if (MIN_SCALE <? x)%float then x else MIN_SCALE
            else MAX_SCALE.
Proof.
  intros Hx. unfold clamp, JS.Math_min.
  change (is_nan MAX_SCALE) with false. change (JS.is_pos_zero MAX_SCALE) with false.
  rewrite Hx, andb_false_r. simpl.
  destruct (x <? MAX_SCALE)%float.
  - unfold JS.Math_max. change (is_nan MIN_SCALE) with false.
    change (JS.is_neg_zero MIN_SCALE) with false.
    rewrite Hx, andb_false_r. reflexivity.
  - reflexivity.
Qed.

Lemma clamp_in_range (x : JS.number) : is_nan x = false -> in_range (clamp x) = true.
Proof.
  intros Hx. rewrite (clamp_unfold x Hx). unfold in_range.
  destruct (x <? MAX_SCALE)%float eqn:Hhi.
  - destruct (MIN_SCALE <? x)%float eqn:Hlo.
    + rewrite (ltb_leb _ _ Hlo), (ltb_leb _ _ Hhi). reflexivity.
    + reflexivity.
  - reflexivity.
Qed.






Lemma Prim2SF_SENS : Prim2SF SCROLL_SENSITIVITY = S754_finite false 5404319552844595 (-55).
Proof. reflexivity. Qed.

Lemma wheel_scale_in_range (s deltaY : JS.number) :
  is_nan s = false -> in_range (wheel_scale s deltaY) = true.
Proof.
  intros Hs. unfold wheel_scale. apply clamp_in_range.
  destruct (deltaY <? 0)%float.
  - exact (add_finite_not_nan _ _ _ _ _ Prim2SF_SENS Hs).
  - apply (add_finite_not_nan s _ true 5404319552844595 (-55)); [reflexivity | exact Hs].
Qed.

Lemma next_preset_in_ZOOM_LEVELS (s : JS.number) : In (next_preset s) ZOOM_LEVELS.
Proof.
  unfold next_preset, nextIndex, JS.indexOf, ZOOM_LEVELS. simpl.
  repeat match goal with
         | |- context [if ?b then _ else _] => destruct b
         end; simpl; tauto.
Qed.

Lemma next_preset_in_range (s : JS.number) : in_range (next_preset s) = true.
Proof.
  pose proof (next_preset_in_ZOOM_LEVELS s) as H. simpl in H.
  destruct H as [H|[H|[H|[H|[H|[]]]]]]; rewrite <- H; reflexivity.
Qed.

Lemma nextIndex_in_range (s : JS.number) : 0 <= nextIndex s < JS.length ZOOM_LEVELS.
Proof.
  unfold nextIndex, JS.indexOf, ZOOM_LEVELS. cbn [JS.indexOf_from].
  repeat match goal with
         | |- context [if ?b then _ else _] => destruct b
         end; vm_compute; (split; [discriminate | reflexivity]).
Qed.

(** * Facts about arrays *)

Section FindIndex.
Context {A : Type} (p : A -> bool).

Lemma findIndex_from_bounds (xs : list A) (i : Z) :
  JS.findIndex_from i p xs = -1
  \/ i <= JS.findIndex_from i p xs < i + JS.length xs.
Proof.
  revert i. induction xs as [|x xs IH]; intros i; simpl.
  - left. reflexivity.
  - unfold JS.length. simpl List.length. destruct (p x).
    + right. lia.
    + destruct (IH (i + 1)) as [H|H]; [left; exact H | right].
      unfold JS.length in H. lia.
Qed.

(** The index found holds an element that satisfies the test. *)
Lemma findIndex_from_found (xs : list A) (i j : Z) :
  0 <= i -> JS.findIndex_from i p xs = j -> i <= j ->
  exists x, nth_error xs (Z.to_nat (j - i)) = Some x /\ p x = true.
Proof.
  revert i. induction xs as [|x xs IH]; intros i Hi Hf Hj; simpl in Hf.
  - lia.
  - destruct (p x) eqn:Hp.
    + subst j. replace (i - i) with 0 by lia. exists x. split; [reflexivity | exact Hp].
    + destruct (findIndex_from_bounds xs (i + 1)) as [Hb|Hb]; [lia|].
      destruct (IH (i + 1)) as [y [Hy Hpy]]; try lia.
      exists y. split; [|exact Hpy].
      replace (Z.to_nat (j - i)) with (S (Z.to_nat (j - (i + 1)))) by lia.
      exact Hy.
Qed.

(** The only element that satisfies the test is found. *)
Lemma findIndex_from_unique (xs : list A) (i : Z) (k : nat) (x : A) :
  nth_error xs k = Some x -> p x = true ->
  (forall k' y, nth_error xs k' = Some y -> p y = true -> k' = k) ->
  JS.findIndex_from i p xs = i + Z.of_nat k.
Proof.
  revert i k. induction xs as [|y ys IH]; intros i k Hk Hp Hu.
  - destruct k; discriminate.
  - simpl. destruct (p y) eqn:Hy.
    + rewrite <- (Hu 0%nat y eq_refl Hy). lia.
    + destruct k as [|k]; [simpl in Hk; congruence|].
      rewrite (IH (i + 1) k Hk Hp); [lia|].
      intros k' z Hz Hpz. specialize (Hu (S k') z Hz Hpz). lia.
Qed.
End FindIndex.

Lemma NoDup_map_nth_error {A B : Type} (f : A -> B) (xs : list A) (i j : nat) (x y : A) :
  NoDup (map f xs) -> nth_error xs i = Some x -> nth_error xs j = Some y ->
  f x = f y -> i = j.
Proof.
  intros Hnd Hi Hj Hf.
  apply (proj1 (NoDup_nth_error (map f xs)) Hnd).
  - rewrite length_map. apply nth_error_Some. congruence.
  - rewrite !nth_error_map, Hi, Hj. simpl. congruence.
Qed.

Lemma findIndex_from_zero {A : Type} (p : A -> bool) (xs : list A) :
  JS.findIndex_from 0 p xs = 0 <-> exists x, nth_error xs 0 = Some x /\ p x = true.
Proof.
  destruct xs as [|x xs]; simpl.
  - split; [discriminate | intros [x [H _]]; discriminate].
  - destruct (p x) eqn:Hp.
    + split; [intros _; exists x; split; [reflexivity | exact Hp] | reflexivity].
    + split.
      * intros H. destruct (findIndex_from_bounds p xs 1); lia.
      * intros [y [Hy Hpy]]. injection Hy as <-. congruence.
Qed.

(** * Facts about the handlers *)

Section Click.
Context (env : Env) (props : Props) (st : State).

(** What a click does, by target: the state that the next render sees and
    the calls made. *)
Lemma click_result (target : Element) :
  click env props st target =
  let dreamId := _id (focusedDream props) in
  match target with
  | Backdrop | ToolbarsContainer | MainToolbar => (st, [OnClose])
  | Card | CardInner => (st, [])
  | PrevButton => (st, if isFirst props then [OnClose] else [OnNavigate prev])
  | NextButton => (st, if isLast props then [OnClose] else [OnNavigate next])
  | ZoomControl | ZoomLabel =>
      (set_zoomPercentage (JS.Math_round (next_preset (scale st) * 100)%float)
                          (set_scale (next_preset (scale st)) st), [])
  | EditButton => (set_isEditing (negb (isEditing st)) st, [])
  | SaveButton =>
      if isEditing st then
        match failure (updateDreamContent_result env dreamId (editedContent st)) with
        | None => (set_isEditing false st,
                   [UpdateDreamContent dreamId (editedContent st)])
        | Some err => (st, [UpdateDreamContent dreamId (editedContent st);
                            ConsoleError "Failed to save dream:" err])
        end
      else (st, [])
  | RegenerateButton =>
      (if isEditing st then set_isEditing false st else st,
       GenerateStory dreamId
       :: match generateStory_result env dreamId with
          | Throws err => [ConsoleError "Failed to trigger story regeneration:" err]
          | Returns (Rejected err) => [UnhandledRejection err]
          | Returns Fulfilled => []
          end)
  end.
Proof.
  destruct target; try reflexivity; unfold click, in_tree, click_listener;
    cbn [path path_from parent map disabled FocusedDreamView prev_disabled
         next_disabled save_rendered].
  - destruct (isFirst props); reflexivity.
  - destruct (isLast props); reflexivity.
  - destruct (isEditing st); [|reflexivity].
    simpl. unfold onClick_save, updateDreamContent, try_catch, bind, call. simpl.
    destruct (updateDreamContent_result env _ _) as [err|[|err]]; reflexivity.
  - simpl. unfold onClick_regenerate, generateStory, try_catch, bind, call. simpl.
    destruct (isEditing st); simpl;
      destruct (generateStory_result env _) as [err|[|err]]; reflexivity.
Qed.

(** The case analysis that the result of a click calls for. *)
Ltac click_cases target :=
  rewrite (click_result target); cbv zeta; destruct target; cbn [zooms];
  repeat match goal with
         | |- context [if ?b then _ else _] => destruct b
         | |- context [match failure ?r with Some _ => _ | None => _ end] =>
             destruct (failure r)
         | |- context [match ?r with Throws _ => _ | Returns _ => _ end] =>
             destruct r as [?|[|?]]
         end.

Lemma click_scale (target : Element) :
  scale (fst (click env props st target))
  = if zooms target then next_preset (scale st) else scale st.
Proof. click_cases target; reflexivity. Qed.

Lemma click_editedContent (target : Element) :
  editedContent (fst (click env props st target)) = editedContent st.
Proof. click_cases target; reflexivity. Qed.

End Click.

(** ** The wheel *)

Lemma run_handler_wheel (st : State) (deltaY : JS.number) :
  run_handler (handleWheel st deltaY) st =
  (set_zoomPercentage (JS.Math_round (wheel_scale (scale st) deltaY * 100)%float)
                      (set_scale (wheel_scale (scale st) deltaY) st), []).
Proof. reflexivity. Qed.



(** ** The scale stays in its interval *)

Lemma step_scale_in_range (env : Env) (ps : Props * State) (ev : Event) :
  in_range (scale (snd ps)) = true ->
  in_range (scale (snd (fst (step env ps ev)))) = true.
Proof.
  destruct ps as [props st]. cbn [snd]. intros H.
  destruct ev as [target|deltaY|value|props']; cbn [step].
  - pose proof (click_scale env props st target) as Hc.
    destruct (click env props st target) as [st' effs]. cbn [fst snd] in *. rewrite Hc.
    destruct (zooms target); [apply next_preset_in_range | exact H].
  - rewrite run_handler_wheel. cbn [fst snd scale set_zoomPercentage set_scale].
    apply wheel_scale_in_range, in_range_not_nan, H.
  - destruct (textarea_rendered props st); exact H.
  - destruct (_ && _); exact H.
Qed.

Lemma run_scale_in_range (env : Env) (evs : list Event) (ps : Props * State) :
  in_range (scale (snd ps)) = true ->
  in_range (scale (snd (fst (run env ps evs)))) = true.
Proof.
  revert ps. induction evs as [|ev evs IH]; intros ps H; simpl.
  - exact H.
  - pose proof (step_scale_in_range env ps ev H) as Hs.
    destruct (step env ps ev) as [ps' effs]. simpl in Hs.
    specialize (IH ps' Hs). destruct (run env ps' evs) as [ps'' effs']. exact IH.
Qed.

Lemma next_preset_cycles (i : Z) :
  next_preset (JS.get ZOOM_LEVELS (i mod 5)) = JS.get ZOOM_LEVELS ((i + 1) mod 5).
Proof.
  assert (H : 0 <= i mod 5 < 5) by (apply Z.mod_pos_bound; lia).
  assert (H1 : (i + 1) mod 5 = (i mod 5 + 1) mod 5).
  { rewrite Zplus_mod. rewrite (Zmod_small 1 5) by lia. reflexivity. }
  rewrite H1.
  assert (Hc : i mod 5 = 0 \/ i mod 5 = 1 \/ i mod 5 = 2 \/ i mod 5 = 3 \/ i mod 5 = 4)
    by lia.
  destruct Hc as [E|[E|[E|[E|E]]]]; rewrite E; reflexivity.
Qed.

(** ** The edit buffer is written by typing and by the effect only *)

Lemma step_seeded (env : Env) (ps : Props * State) (ev : Event) :
  is_change ev = false -> seeded ps -> seeded (fst (step env ps ev)).
Proof.
  destruct ps as [props st]. unfold seeded. cbn [fst snd]. intros Hc H.
  destruct ev as [target|deltaY|value|props']; try discriminate; cbn [step].
  - pose proof (click_editedContent env props st target) as He.
    destruct (click env props st target) as [st' effs]. cbn [fst snd] in *. congruence.
  - rewrite run_handler_wheel. exact H.
  - destruct ((content (focusedDream props') =? content (focusedDream props))%string)
      eqn:E; cbn [andb]; [|reflexivity].
    destruct ((_id (focusedDream props') =? _id (focusedDream props))%string);
      [|reflexivity].
    cbn [fst snd]. apply String.eqb_eq in E. congruence.
Qed.

Lemma run_seeded (env : Env) (evs : list Event) (ps : Props * State) :
  forallb (fun ev => negb (is_change ev)) evs = true ->
  seeded ps -> seeded (fst (run env ps evs)).
Proof.
  revert ps. induction evs as [|ev evs IH]; intros ps Hevs H; simpl.
  - exact H.
  - simpl in Hevs. apply andb_prop in Hevs. destruct Hevs as [Hev Hevs].
    apply negb_true_iff in Hev.
    pose proof (step_seeded env ps ev Hev H) as Hs.
    destruct (step env ps ev) as [ps' effs]. cbn [fst] in Hs.
    specialize (IH ps' Hevs Hs). destruct (run env ps' evs) as [ps'' effs']. exact IH.
Qed.

Lemma seeded_textarea (ps : Props * State) :
  seeded ps -> textarea_rendered (fst ps) (snd ps) = true ->
  In (Textarea (content (focusedDream (fst ps))))
     (card (FocusedDreamView (fst ps) (snd ps))).
Proof.
  destruct ps as [props st]. unfold seeded, textarea_rendered. cbn [fst snd].
  intros Hs. cbn [FocusedDreamView card]. unfold card_content.
  destruct (is_pending (focusedDream props)); cbn [negb andb app].
  - simpl. discriminate.
  - destruct (isEditing st).
    + intros _. rewrite <- Hs. simpl. tauto.
    + destruct (JS.truthy (analysis_title _)), (JS.truthy (story _)); simpl; discriminate.
Qed.

(** The view is seeded at mount, and again when the record changes. *)
Lemma mount_seeded (props : Props) : seeded (mount props).
Proof. reflexivity. Qed.

Lemma rerender_seeds (env : Env) (props props' : Props) (st : State) :
  content (focusedDream props') <> content (focusedDream props)
  \/ _id (focusedDream props') <> _id (focusedDream props) ->
  let ps' := fst (step env (props, st) (Rerender props')) in
  seeded ps' /\ isEditing (snd ps') = false.
Proof.
  intros H. cbn [step].
  destruct ((content (focusedDream props') =? content (focusedDream props))%string)
    eqn:E1; [|split; reflexivity].
  destruct ((_id (focusedDream props') =? _id (focusedDream props))%string) eqn:E2;
    [|split; reflexivity].
  apply String.eqb_eq in E1, E2. destruct H; contradiction.
Qed.
(** * The properties of the specification *)

(** ** Pending records *)

(** C1. For a record whose status is "pending", the card and the focused
    view both show the loading indicator, and neither renders the story or
    the title of the record: the content of each is the spinner and its
    caption, whatever the state of the view. *)
Theorem pending_shows_loading_only (dream : Dream) (all : list Dream) (st : State) :
  status dream = Some pending ->
  let focused :=
    card (FocusedDreamView {| focusedDream := dream; allDreams := all |} st) in
  (DreamCard dream = [Spinner; Text "Generating story..."]
   /\ shows_loading (DreamCard dream) = true
   /\ renders_field FStory (DreamCard dream) = false
   /\ renders_field FTitle (DreamCard dream) = false)
  /\ (focused = [Spinner; Text "Generating story..."]
      /\ shows_loading focused = true
      /\ renders_field FStory focused = false
      /\ renders_field FTitle focused = false).
Proof.
  intros Hp focused. subst focused.
  unfold DreamCard. cbn [FocusedDreamView card]. unfold card_content, is_pending.
  cbn [focusedDream]. rewrite Hp. cbn [negb andb app]. repeat split.
Qed.

Lemma pending_shows_loading_only_witness :
  shows_loading (DreamCard a_pending_dream) = true
  /\ renders_field FStory
       (card (FocusedDreamView
                {| focusedDream := a_pending_dream; allDreams := three_dreams |}
                (editing "I was falling"))) = false.
Proof.
  pose proof (pending_shows_loading_only a_pending_dream three_dreams
                (editing "I was falling") eq_refl) as H.
  cbv zeta in H. split; apply H.
Defined.

(** ** Navigation *)

(** C2, as stated, fails where the view is given an empty list: no record
    is at any index, and "next" is disabled all the same, the index -1
    that [findIndex] answers being [length - 1]. *)
Lemma next_disabled_without_dreams :
  ~ (next_disabled (FocusedDreamView no_dreams (initial no_dreams)) = true
     <-> focused_at no_dreams (JS.length (allDreams no_dreams) - 1)).
Proof.
  intros [H _]. destruct (H eq_refl) as [dream [Hd _]]. discriminate Hd.
Qed.

(** With two records of one identifier the first one is found, so "next"
    stays enabled on the second. *)
Lemma next_enabled_on_duplicate :
  let props := {| focusedDream := a_dream; allDreams := [a_dream; a_dream] |} in
  next_disabled (FocusedDreamView props (initial props)) = false
  /\ focused_at props (JS.length (allDreams props) - 1).
Proof.
  split; [reflexivity|]. exists a_dream. split; reflexivity.
Qed.

(** C2, amended. "Previous" is disabled if and only if the focused record
    is at index 0 of the list. When the list is not empty and its
    identifiers are pairwise distinct, "next" is disabled if and only if
    the focused record is at the last index. *)
Theorem navigation_disabled_iff (props : Props) (st : State) :
  (prev_disabled (FocusedDreamView props st) = true <-> focused_at props 0)
  /\ (allDreams props <> [] ->
      NoDup (map _id (allDreams props)) ->
      (next_disabled (FocusedDreamView props st) = true
       <-> focused_at props (JS.length (allDreams props) - 1))).
Proof.
  cbn [FocusedDreamView prev_disabled next_disabled].
  unfold isFirst, isLast, currentIndex, focused_at, JS.findIndex.
  set (p := fun dream : Dream => (_id dream =? _id (focusedDream props))%string).
  split.
  - rewrite Z.eqb_eq, findIndex_from_zero. unfold JS.at_index.
    cbn [Z.ltb Z.compare Z.to_nat].
    split; intros [d [Hd Hp]]; exists d; (split; [exact Hd|]);
      apply String.eqb_eq; exact Hp.
  - intros Hne Hnd. rewrite Z.eqb_eq.
    set (j := JS.length (allDreams props) - 1).
    assert (Hj : 0 <= j).
    { unfold j, JS.length.
      destruct (allDreams props); [congruence | cbn [List.length]; lia]. }
    unfold JS.at_index.
    replace (j <? 0) with false by (symmetry; apply Z.ltb_ge; exact Hj).
    split.
    + intros Hf.
      destruct (findIndex_from_found p _ 0 j (Z.le_refl 0) Hf Hj) as [d [Hd Hp]].
      rewrite Z.sub_0_r in Hd. exists d. split; [exact Hd|].
      apply String.eqb_eq. exact Hp.
    + intros [d [Hd Hid]].
      rewrite (findIndex_from_unique p _ 0 (Z.to_nat j) d Hd).
      * lia.
      * apply String.eqb_eq. exact Hid.
      * intros k' y Hy Hpy. apply String.eqb_eq in Hpy.
        apply (NoDup_map_nth_error _id _ _ _ y d Hnd Hy Hd). congruence.
Qed.

Lemma navigation_disabled_iff_witness :
  next_disabled (FocusedDreamView last_of_three (initial last_of_three)) = true
  <-> focused_at last_of_three 2.
Proof.
  apply (navigation_disabled_iff last_of_three (initial last_of_three)).
  - discriminate.
  - unfold last_of_three, three_dreams. simpl.
    repeat constructor; simpl; intros H;
      repeat (destruct H as [H|H]; try discriminate H); contradiction.
Defined.

(** The example of the specification: three records. *)
Example navigation_of_three :
  map (fun dream =>
         let v := FocusedDreamView {| focusedDream := dream; allDreams := three_dreams |}
                                   (initial some_props) in
         (prev_disabled v, next_disabled v))
      three_dreams
  = [(true, false); (false, false); (false, true)].
Proof. reflexivity. Qed.

(** ** Zoom *)

(** C3. The scale is 1.0 at mount; after any sequence of events (clicks
    anywhere, wheel events of any delta, typing, new props) it lies in
    [0.5, 2.5]; a click on the zoom control sets it to the preset that
    follows the current one in 0.5, 1.0, 1.5, 2.0, 2.5, and 2.5 is followed
    by 0.5. *)
Theorem zoom_scale_in_range_and_cycles :
  (forall props, scale (initial props) = 1%float)
  /\ (forall env props evs,
        in_range (scale (snd (fst (run env (mount props) evs)))) = true)
  /\ (forall env props st,
        scale (fst (click env props st ZoomControl)) = next_preset (scale st))
  /\ (forall i : Z,
        next_preset (JS.get ZOOM_LEVELS (i mod 5)) = JS.get ZOOM_LEVELS ((i + 1) mod 5))
  /\ next_preset 2.5%float = 0.5%float.
Proof.
  split; [reflexivity|]. split.
  { intros env props evs. apply run_scale_in_range. reflexivity. }
  split.
  { intros env props st. apply click_scale. }
  split; [exact next_preset_cycles | reflexivity].
Qed.



(** The sum of JavaScript numbers is rounded: a wheel-up and a wheel-down
    from 1.0 end at the number below 1.0, which is no preset, though the
    label reads 100 again. *)
Example wheel_up_then_down :
  let st := snd (fst (run quiet_env (mount some_props)
                          [Wheel (-100)%float; Wheel 100%float])) in
  scale st = 0x1.fffffffffffffp-1%float
  /\ zoomPercentage st = 100%float
  /\ JS.indexOf ZOOM_LEVELS (scale st) = -1.
Proof. repeat split. Qed.

(** A wheel event that does not scroll vertically ([deltaY] is 0) is taken
    as a wheel-down. *)
Example wheel_without_vertical_delta :
  scale (snd (fst (step quiet_env (some_props, with_scale 1%float) (Wheel 0%float))))
  = (1 - SCROLL_SENSITIVITY)%float.
Proof. reflexivity. Qed.

(** C10. When the scale is none of the presets, [indexOf] answers -1, the
    next index is 0, and a click on the zoom control sets the scale to 0.5,
    the first preset; the label then reads 50. *)
Theorem off_preset_click_selects_first_preset (env : Env) (props : Props) (st : State) :
  (forall z, In z ZOOM_LEVELS -> (z =? scale st)%float = false) ->
  JS.indexOf ZOOM_LEVELS (scale st) = -1
  /\ nextIndex (scale st) = 0
  /\ scale (fst (click env props st ZoomControl)) = 0.5%float
  /\ zoom_label (FocusedDreamView props (fst (click env props st ZoomControl)))
     = 50%float.
Proof.
  intros H.
  assert (Hi : JS.indexOf ZOOM_LEVELS (scale st) = -1).
  { unfold JS.indexOf, ZOOM_LEVELS. cbn [JS.indexOf_from].
    rewrite !H by (simpl; tauto). reflexivity. }
  assert (Hn : next_preset (scale st) = 0.5%float).
  { unfold next_preset, nextIndex. rewrite Hi. reflexivity. }
  split; [exact Hi|]. split; [unfold nextIndex; rewrite Hi; reflexivity|].
  rewrite (click_result env props st ZoomControl).
  cbn [fst scale FocusedDreamView zoom_label zoomPercentage set_scale
       set_zoomPercentage].
  rewrite Hn. split; reflexivity.
Qed.

Lemma off_preset_click_selects_first_preset_witness :
  scale (fst (click quiet_env some_props (with_scale 1.15%float) ZoomControl))
  = 0.5%float.
Proof.
  apply (off_preset_click_selects_first_preset quiet_env some_props
           (with_scale 1.15%float)).
  intros z Hz. simpl in Hz.
  destruct Hz as [Hz|[Hz|[Hz|[Hz|[Hz|[]]]]]]; rewrite <- Hz; reflexivity.
Defined.

(** ** Saving and regenerating *)

(** C5. In edit mode a click on the save button calls the mutation with
    the identifier of the focused record and the edited content. Edit mode
    is left if and only if the mutation succeeds, and then nothing else is
    called. When the mutation fails, by a throw or by a rejection, the
    reason is logged with [console.error] and the state of the view is what
    it was: edit mode stays, the edited content is unchanged. *)
Theorem save_exits_edit_mode_iff_saved (env : Env) (props : Props) (st : State) :
  isEditing st = true ->
  let dreamId := _id (focusedDream props) in
  let outcome := updateDreamContent_result env dreamId (editedContent st) in
  let st' := fst (click env props st SaveButton) in
  let effs := snd (click env props st SaveButton) in
  hd_error effs = Some (UpdateDreamContent dreamId (editedContent st))
  /\ (isEditing st' = false <-> outcome = Returns Fulfilled)
  /\ (outcome = Returns Fulfilled ->
      effs = [UpdateDreamContent dreamId (editedContent st)])
  /\ (forall err, failure outcome = Some err ->
        effs = [UpdateDreamContent dreamId (editedContent st);
                ConsoleError "Failed to save dream:" err]
        /\ st' = st)
  /\ editedContent st' = editedContent st.
Proof.
  intros He dreamId outcome st' effs. subst st' effs.
  rewrite (click_result env props st SaveButton), He. cbv zeta.
  subst dreamId outcome.
  destruct (updateDreamContent_result env _ _) as [err|[|err]];
    cbn [failure fst snd hd_error isEditing editedContent set_isEditing];
    rewrite ?He; repeat split; try discriminate; try congruence.
Qed.

Lemma save_exits_edit_mode_iff_saved_witness :
  isEditing (fst (click quiet_env some_props (editing "A longer corridor") SaveButton))
  = false
  /\ fst (click failing_env some_props (editing "A longer corridor") SaveButton)
     = editing "A longer corridor".
Proof.
  split.
  - apply (save_exits_edit_mode_iff_saved quiet_env some_props
             (editing "A longer corridor") eq_refl).
    reflexivity.
  - destruct (save_exits_edit_mode_iff_saved failing_env some_props
                (editing "A longer corridor") eq_refl) as [_ [_ [_ [H _]]]].
    apply (H "network error"). reflexivity.
Defined.

(** C6, the code at the failing input. The promise of [generateStory] is
    rejected; the handler has left edit mode and called the action with the
    identifier of the focused record, and the rejection is not caught:
    [console.error] is not called. *)
Theorem regenerate_rejection_is_not_caught :
  click failing_env some_props (editing "A longer corridor") RegenerateButton
  = ({| scale := 1%float; zoomPercentage := 100%float;
        isEditing := false; editedContent := "A longer corridor" |},
     [GenerateStory "d2"; UnhandledRejection "network error"]).
Proof. reflexivity. Qed.

(** What the regenerate handler does in general: it leaves edit mode, calls
    the action with the identifier of the focused record, logs a throw of
    the call, and lets a rejection of its promise go unhandled. *)
Lemma regenerate_calls_action (env : Env) (props : Props) (st : State) :
  let dreamId := _id (focusedDream props) in
  let st' := fst (click env props st RegenerateButton) in
  let effs := snd (click env props st RegenerateButton) in
  hd_error effs = Some (GenerateStory dreamId)
  /\ st' = set_isEditing false st
  /\ (forall err, generateStory_result env dreamId = Throws err ->
        effs = [GenerateStory dreamId;
                ConsoleError "Failed to trigger story regeneration:" err])
  /\ (forall err, generateStory_result env dreamId = Returns (Rejected err) ->
        effs = [GenerateStory dreamId; UnhandledRejection err]).
Proof.
  cbv zeta. rewrite (click_result env props st RegenerateButton). cbv zeta.
  cbn [fst snd hd_error]. repeat split.
  - destruct st as [sc zp [|] ec]; reflexivity.
  - intros err H. rewrite H. reflexivity.
  - intros err H. rewrite H. reflexivity.
Qed.

(** The save handler, which awaits its call, logs the same rejection. *)
Example save_rejection_is_caught :
  snd (click failing_env some_props (editing "A longer corridor") SaveButton)
  = [UpdateDreamContent "d2" "A longer corridor";
     ConsoleError "Failed to save dream:" "network error"].
Proof. reflexivity. Qed.

(** ** The edit buffer *)

(** C7, as stated, fails: after typing and cancelling, edit mode is toggled
    on again and the text area shows what was typed, not the content of the
    record. *)
Lemma reopened_edit_shows_typed_text :
  let before := fst (run quiet_env (mount some_props) (removelast reopen_after_typing)) in
  let after := fst (run quiet_env (mount some_props) reopen_after_typing) in
  isEditing (snd before) = false
  /\ isEditing (snd after) = true
  /\ In (Textarea "A short corridor") (card (FocusedDreamView (fst after) (snd after)))
  /\ content (focusedDream (fst after)) = "A long corridor"
  /\ ~ seeded after.
Proof.
  cbv zeta. repeat split; try reflexivity.
  - simpl. tauto.
  - unfold seeded. simpl. discriminate.
Qed.

(** C7, amended. The buffer of the text area is seeded with the content of
    the record at mount and whenever the identifier or the content of the
    focused record changes; a click on the edit button leaves it as it is.
    So from a seeded view, after any events other than typing, the buffer
    holds the content of the focused record, and the text area, when it is
    shown, shows that content. *)
Theorem edit_buffer_seeded_until_typed (env : Env) :
  (forall props, seeded (mount props))
  /\ (forall props props' st,
        content (focusedDream props') <> content (focusedDream props)
        \/ _id (focusedDream props') <> _id (focusedDream props) ->
        seeded (fst (step env (props, st) (Rerender props'))))
  /\ (forall props st,
        editedContent (fst (click env props st EditButton)) = editedContent st)
  /\ (forall ps evs,
        seeded ps ->
        forallb (fun ev => negb (is_change ev)) evs = true ->
        let ps' := fst (run env ps evs) in
        seeded ps'
        /\ (textarea_rendered (fst ps') (snd ps') = true ->
            In (Textarea (content (focusedDream (fst ps'))))
               (card (FocusedDreamView (fst ps') (snd ps'))))).
Proof.
  split; [exact mount_seeded|]. split.
  { intros props props' st H. apply (rerender_seeds env props props' st H). }
  split.
  { intros props st. apply click_editedContent. }
  intros ps evs Hs Hevs ps'. pose proof (run_seeded env evs ps Hevs Hs) as H.
  split; [exact H | apply seeded_textarea, H].
Qed.

Lemma edit_buffer_seeded_until_typed_witness :
  In (Textarea "A long corridor")
     (card (FocusedDreamView some_props
              (snd (fst (run quiet_env (mount some_props)
                             [Click ZoomControl; Click EditButton]))))).
Proof.
  destruct (edit_buffer_seeded_until_typed quiet_env) as [_ [_ [_ H]]].
  apply (H (mount some_props) [Click ZoomControl; Click EditButton] eq_refl eq_refl).
  reflexivity.
Defined.

(** ** Closing *)

(** C8, the code at the failing input. The view of a record in the middle
    of the list has just been mounted, and a click lands on the toolbar
    between two of its buttons: the target is the container of line 219,
    not the backdrop. [onClose] is called. *)
Theorem toolbar_click_closes :
  click quiet_env some_props (initial some_props) MainToolbar
  = (initial some_props, [OnClose]).
Proof. reflexivity. Qed.

(** So it is by a click that reaches the disabled "next" arrow of the last
    record. *)
Example disabled_arrow_click_closes :
  click quiet_env last_of_three (initial last_of_three) NextButton
  = (initial last_of_three, [OnClose]).
Proof. reflexivity. Qed.

(** What a click calls, in any state. On the backdrop it calls [onClose].
    On either container of the toolbar it calls [onClose] too: the
    containers have no handler that stops the click, which the card and
    every control have. On an arrow it calls [onNavigate], unless the arrow
    is disabled: the handler that stops the click is then not run, and
    [onClose] is called. On the other controls and on the body of the card
    [onClose] is not called. In each case of [onClose] the state is left as
    it was and nothing else is called. *)
Lemma close_reached_from_toolbar (env : Env) (props : Props) (st : State) :
  click env props st Backdrop = (st, [OnClose])
  /\ Forall (fun target => click env props st target = (st, [OnClose]))
            toolbar_containers
  /\ click env props st PrevButton
     = (st, if prev_disabled (FocusedDreamView props st) then [OnClose]
            else [OnNavigate prev])
  /\ click env props st NextButton
     = (st, if next_disabled (FocusedDreamView props st) then [OnClose]
            else [OnNavigate next])
  /\ Forall (fun target => ~ In OnClose (snd (click env props st target)))
            stopping_controls.
Proof.
  split; [reflexivity|]. split; [repeat constructor|].
  split; [apply click_result|]. split; [apply click_result|].
  unfold stopping_controls.
  repeat constructor; rewrite click_result; cbv zeta; cbn [snd];
    repeat match goal with
           | |- context [if ?b then _ else _] => destruct b
           | |- context [match failure ?r with Some _ => _ | None => _ end] =>
               destruct (failure r)
           | |- context [match ?r with Throws _ => _ | Returns _ => _ end] =>
               destruct r as [?|[|?]]
           end; cbn [snd In]; intros Hin;
    repeat (destruct Hin as [Hin|Hin]; try discriminate Hin); contradiction.
Qed.

(** ** The scroll lock *)

(** C9, as stated, fails: the view is mounted on a page whose body has a
    style of its own, and the cleanup does not put that style back. *)
Lemma scroll_lock_does_not_restore :
  ~ (body (unmount_view (page_run quiet_env
                                  (mount_view some_props (closed_page page_style))
                                  [Click EditButton]))
     = page_style).
Proof. discriminate. Qed.

(** C9, amended. While the view is mounted, whatever events it receives,
    the overflow, position and width of the body are "hidden", "fixed" and
    "100%". On unmount they are set to "unset", "" and "", whatever they
    were before the mount; they are the prior values only when the prior
    values were these. *)
Theorem scroll_lock_resets_body_style (env : Env) (props : Props)
        (style : BodyStyle) (evs : list Event) :
  let mounted := page_run env (mount_view props (closed_page style)) evs in
  body mounted = locked_style
  /\ view mounted <> None
  /\ body (unmount_view mounted) = reset_style
  /\ (body (unmount_view mounted) = style <-> style = reset_style).
Proof.
  cbv zeta.
  assert (H : forall page,
             body page = locked_style -> view page <> None ->
             body (page_run env page evs) = locked_style
             /\ view (page_run env page evs) <> None).
  { unfold page_run. induction evs as [|ev evs IH]; intros page Hb Hv; simpl.
    - split; assumption.
    - apply IH; unfold page_step; destruct (view page); simpl; congruence. }
  destruct (H (mount_view props (closed_page style)) eq_refl) as [Hb Hv];
    [discriminate|].
  split; [exact Hb|]. split; [exact Hv|]. split; [reflexivity|].
  unfold unmount_view, unlock_scroll, reset_style. cbn [body].
  split; intros E; congruence.
Qed.

(** * Further properties of the code *)

(** ** The scales that a view reaches *)

Lemma mem_number_In (x : JS.number) (xs : list JS.number) :
  mem_number x xs = true <-> In x xs.
Proof.
  unfold mem_number. rewrite existsb_exists. split.
  - intros [y [Hy He]]. apply FloatAxioms.Leibniz.eqb_spec in He. subst y. exact Hy.
  - intros H. exists x. split; [exact H|]. apply FloatAxioms.Leibniz.eqb_spec. reflexivity.
Qed.

Lemma reachable_scales_closed :
  forallb (fun s => forallb (fun t => mem_number t reachable_scales)
                            (scale_successors s))
          reachable_scales = true.
Proof. vm_compute. reflexivity. Qed.

Lemma reachable_successors (s t : JS.number) :
  In s reachable_scales -> In t (scale_successors s) -> In t reachable_scales.
Proof.
  intros Hs Ht. pose proof reachable_scales_closed as H.
  rewrite forallb_forall in H. specialize (H s Hs).
  rewrite forallb_forall in H. apply mem_number_In, H, Ht.
Qed.

Lemma wheel_scale_successor (s deltaY : JS.number) :
  In (wheel_scale s deltaY) (scale_successors s).
Proof.
  unfold scale_successors, wheel_scale.
  change ((-1 <? 0)%float) with true. change ((1 <? 0)%float) with false.
  destruct (deltaY <? 0)%float; simpl; tauto.
Qed.

Lemma step_scale_reachable (env : Env) (ps : Props * State) (ev : Event) :
  In (scale (snd ps)) reachable_scales ->
  In (scale (snd (fst (step env ps ev)))) reachable_scales.
Proof.
  destruct ps as [props st]. cbn [snd]. intros H.
  destruct ev as [target|deltaY|value|props']; cbn [step].
  - pose proof (click_scale env props st target) as Hc.
    destruct (click env props st target) as [st' effs]. cbn [fst snd] in *. rewrite Hc.
    destruct (zooms target); [|exact H].
    apply (reachable_successors (scale st)); [exact H|].
    unfold scale_successors. simpl. tauto.
  - rewrite run_handler_wheel. cbn [fst snd scale set_zoomPercentage set_scale].
    apply (reachable_successors (scale st)); [exact H|]. apply wheel_scale_successor.
  - destruct (textarea_rendered props st); exact H.
  - destruct (_ && _); exact H.
Qed.

Lemma run_scale_reachable (env : Env) (evs : list Event) (ps : Props * State) :
  In (scale (snd ps)) reachable_scales ->
  In (scale (snd (fst (run env ps evs)))) reachable_scales.
Proof.
  revert ps. induction evs as [|ev evs IH]; intros ps H; simpl.
  - exact H.
  - pose proof (step_scale_reachable env ps ev H) as Hs.
    destruct (step env ps ev) as [ps' effs]. simpl in Hs.
    specialize (IH ps' Hs). destruct (run env ps' evs) as [ps'' effs']. exact IH.
Qed.

(** ** The label mirrors the scale *)

Lemma step_mirrored (env : Env) (ps : Props * State) (ev : Event) :
  mirrored (snd ps) -> mirrored (snd (fst (step env ps ev))).
Proof.
  destruct ps as [props st]. unfold mirrored. cbn [snd]. intros H.
  destruct ev as [target|deltaY|value|props']; cbn [step].
  - rewrite (click_result env props st target). cbv zeta.
    destruct target; cbn [fst snd];
      repeat match goal with
             | |- context [if ?b then _ else _] => destruct b
             | |- context [match failure ?r with Some _ => _ | None => _ end] =>
                 destruct (failure r)
             end; cbn [fst snd scale zoomPercentage set_scale set_zoomPercentage
                       set_isEditing]; first [exact H | reflexivity].
  - rewrite run_handler_wheel. reflexivity.
  - destruct (textarea_rendered props st); exact H.
  - destruct (_ && _); exact H.
Qed.

Lemma run_mirrored (env : Env) (evs : list Event) (ps : Props * State) :
  mirrored (snd ps) -> mirrored (snd (fst (run env ps evs))).
Proof.
  revert ps. induction evs as [|ev evs IH]; intros ps H; simpl.
  - exact H.
  - pose proof (step_mirrored env ps ev H) as Hs.
    destruct (step env ps ev) as [ps' effs]. simpl in Hs.
    specialize (IH ps' Hs). destruct (run env ps' evs) as [ps'' effs']. exact IH.
Qed.

(** X1. After any sequence of events from mount, the label that the zoom
    control shows is the rounded percentage of the scale that the card is
    drawn at: no handler writes one without the other. *)
Theorem label_mirrors_scale (env : Env) (props : Props) (evs : list Event) :
  let ps := fst (run env (mount props) evs) in
  let v := FocusedDreamView (fst ps) (snd ps) in
  zoom_label v = JS.Math_round (card_scale v * 100)%float.
Proof.
  cbv zeta. cbn [FocusedDreamView zoom_label card_scale].
  apply (run_mirrored env evs (mount props)). reflexivity.
Qed.

Lemma reachable_labels :
  forallb (fun s => mem_number (JS.Math_round (s * 100)%float) percent_labels)
          reachable_scales = true.
Proof. vm_compute. reflexivity. Qed.

(** X2. After any sequence of events from mount the scale is one of 73
    numbers, and the label is a multiple of 5 from 50 to 250, although the
    steps of 0.15 are rounded sums of binary numbers. *)
Theorem label_is_multiple_of_five (env : Env) (props : Props) (evs : list Event) :
  let st := snd (fst (run env (mount props) evs)) in
  List.length reachable_scales = 73%nat
  /\ In (scale st) reachable_scales
  /\ exists k : Z, 10 <= k <= 50 /\ zoomPercentage st = number_of_Z (5 * k).
Proof.
  cbv zeta. split; [reflexivity|].
  pose proof (run_scale_reachable env evs (mount props)) as Hr.
  pose proof (run_mirrored env evs (mount props) eq_refl) as Hm.
  specialize (Hr (or_introl eq_refl)). split; [exact Hr|].
  unfold mirrored in Hm. rewrite Hm.
  pose proof reachable_labels as H. rewrite forallb_forall in H.
  specialize (H _ Hr). apply mem_number_In in H. unfold percent_labels in H.
  apply in_map_iff in H. destruct H as [k [Hk Hin]]. apply in_seq in Hin.
  exists (Z.of_nat k). split; [lia | symmetry; exact Hk].
Qed.





(** ** Clicks on the zoom control *)

Lemma run_app (env : Env) (evs1 evs2 : list Event) (ps : Props * State) :
  run env ps (evs1 ++ evs2)
  = (fst (run env (fst (run env ps evs1)) evs2),
     (snd (run env ps evs1) ++ snd (run env (fst (run env ps evs1)) evs2))%list).
Proof.
  revert ps. induction evs1 as [|ev evs1 IH]; intros ps; cbn [app run].
  - cbn [fst snd]. destruct (run env ps evs2); reflexivity.
  - destruct (step env ps ev) as [ps' effs]. rewrite IH.
    destruct (run env ps' evs1) as [ps1 effs1]. cbn [fst snd].
    destruct (run env ps1 evs2) as [ps2 effs2]. cbn [fst snd].
    rewrite app_assoc. reflexivity.
Qed.

(** X4. The presets are a cycle of five: from any scale, a preset or not,
    one click on the zoom control reaches a preset, and five further
    clicks come back to the same scale and label; nothing else of the view
    changes and nothing is called. *)
Theorem five_clicks_come_back (env : Env) (props : Props) (st : State) :
  let once := run env (props, st) (zoom_clicks 1) in
  In (scale (snd (fst once))) ZOOM_LEVELS
  /\ run env (fst once) (zoom_clicks 5) = (fst once, []).
Proof.
  cbv zeta. unfold zoom_clicks. cbn [repeat run step].
  rewrite (click_result env props st ZoomControl). cbv zeta. cbn [fst snd].
  split.
  - cbn [scale set_zoomPercentage set_scale]. apply next_preset_in_ZOOM_LEVELS.
  - destruct st as [sc zp ed ec].
    unfold set_zoomPercentage, set_scale.
    cbn [scale zoomPercentage isEditing editedContent].
    pose proof (next_preset_in_ZOOM_LEVELS sc) as H. simpl in H.
    destruct H as [H|[H|[H|[H|[H|[]]]]]]; rewrite <- H; reflexivity.
Qed.

(** ** Zooming and the rest *)

Lemma textarea_rendered_iff (props : Props) (st : State) :
  textarea_rendered props st = negb (is_pending (focusedDream props)) && isEditing st.
Proof.
  unfold textarea_rendered. cbn [FocusedDreamView card]. unfold card_content.
  destruct (is_pending (focusedDream props)); cbn [negb andb app]; [reflexivity|].
  destruct (isEditing st), (JS.truthy (analysis_title _)), (JS.truthy (story _));
    reflexivity.
Qed.





(** ** The edit buffer *)

Lemma writes_buffer_same_record (props props' : Props) (ev : Event) :
  same_record props props' -> writes_buffer props' ev = writes_buffer props ev.
Proof.
  intros [Hid Hc]. destruct ev; try reflexivity. cbn [writes_buffer].
  rewrite Hid, Hc. reflexivity.
Qed.

Lemma step_keeps_buffer (env : Env) (props : Props) (st : State) (ev : Event) :
  writes_buffer props ev = false ->
  editedContent (snd (fst (step env (props, st) ev))) = editedContent st
  /\ same_record props (fst (fst (step env (props, st) ev))).
Proof.
  destruct ev as [target|deltaY|value|props']; try discriminate; intros Hw; cbn [step].
  - pose proof (click_editedContent env props st target) as He.
    destruct (click env props st target) as [st' effs]. cbn [fst snd] in *.
    split; [exact He | split; reflexivity].
  - rewrite run_handler_wheel. split; [reflexivity | split; reflexivity].
  - cbn [writes_buffer] in Hw. apply negb_false_iff in Hw. rewrite Hw. cbn [fst snd].
    apply andb_prop in Hw. destruct Hw as [Hc Hid].
    apply String.eqb_eq in Hc, Hid. split; [reflexivity | split; assumption].
Qed.

Lemma run_keeps_buffer (env : Env) (props0 : Props) (evs : list Event) :
  forallb (fun ev => negb (writes_buffer props0 ev)) evs = true ->
  forall props st,
    same_record props0 props ->
    editedContent (snd (fst (run env (props, st) evs))) = editedContent st
    /\ same_record props0 (fst (fst (run env (props, st) evs))).
Proof.
  induction evs as [|ev evs IH]; intros Hevs props st Hsame; cbn [run].
  - split; [reflexivity | exact Hsame].
  - cbn [forallb] in Hevs. apply andb_prop in Hevs. destruct Hevs as [Hev Hevs].
    apply negb_true_iff in Hev.
    rewrite <- (writes_buffer_same_record props0 props ev Hsame) in Hev.
    destruct (step_keeps_buffer env props st ev Hev) as [He Hs].
    destruct (step env (props, st) ev) as [[props1 st1] effs]. cbn [fst snd] in *.
    assert (Hsame1 : same_record props0 props1).
    { destruct Hsame as [H1 H2], Hs as [H3 H4]. split; congruence. }
    destruct (IH Hevs props1 st1 Hsame1) as [He' Hs'].
    destruct (run env (props1, st1) evs) as [[props2 st2] effs']. cbn [fst snd] in *.
    split; [congruence | exact Hs'].
Qed.

(** X6. The text typed into the edit buffer is written by typing and by a
    change of the identifier or the content of the focused record, and by
    nothing else: it survives zooming, cancelling the edit, a save that
    succeeds or fails, regenerating, clicks anywhere, and new props that
    bring another story, status, title or list for the same record. *)
Theorem typed_text_survives (env : Env) (props : Props) (st : State)
        (evs : list Event) :
  forallb (fun ev => negb (writes_buffer props ev)) evs = true ->
  editedContent (snd (fst (run env (props, st) evs))) = editedContent st.
Proof.
  intros Hevs.
  apply (run_keeps_buffer env props evs Hevs props st). split; reflexivity.
Qed.

Lemma typed_text_survives_witness :
  editedContent
    (snd (fst (run failing_env (some_props, editing "A longer corridor")
                   [Click SaveButton; Click RegenerateButton;
                    Rerender {| focusedDream := a_dream; allDreams := [] |};
                    Wheel 1%float; Click EditButton])))
  = "A longer corridor".
Proof.
  apply (typed_text_survives failing_env some_props (editing "A longer corridor")).
  reflexivity.
Defined.

(** X7. A save that succeeds, followed by the props that bring the saved
    content back for the same record, leaves the view out of edit mode
    with its buffer equal to the content of the record; the mutation was
    called once and nothing was logged, and a record that is not pending
    shows the saved text read-only. *)
Theorem save_then_reload (env : Env) (props props' : Props) (st : State) :
  isEditing st = true ->
  updateDreamContent_result env (_id (focusedDream props)) (editedContent st)
  = Returns Fulfilled ->
  _id (focusedDream props') = _id (focusedDream props) ->
  content (focusedDream props') = editedContent st ->
  let r := run env (props, st) [Click SaveButton; Rerender props'] in
  snd r = [UpdateDreamContent (_id (focusedDream props)) (editedContent st)]
  /\ fst (fst r) = props'
  /\ isEditing (snd (fst r)) = false
  /\ seeded (fst r)
  /\ (is_pending (focusedDream props') = false ->
      In (Interp FContent (editedContent st))
         (card (FocusedDreamView props' (snd (fst r))))).
Proof.
  intros He Hok Hid Hc. cbv zeta. cbn [run step].
  rewrite (click_result env props st SaveButton), He. cbv zeta.
  rewrite Hok. cbn [failure].
  destruct st as [sc zp ed ec]. cbn [isEditing editedContent] in *. subst ed.
  unfold set_isEditing. cbn [scale zoomPercentage editedContent run step].
  destruct (_ && _); cbn [fst snd app run_handler sync_edited_content];
    (split; [reflexivity|]); (split; [reflexivity|]);
    (split; [reflexivity|]);
    (split; [unfold seeded; simpl; congruence|]);
    intros Hp; cbn [FocusedDreamView card]; unfold card_content; rewrite Hp;
    rewrite Hc; simpl; tauto.
Qed.

Lemma save_then_reload_witness :
  seeded (fst (run quiet_env (some_props, editing "A longer corridor")
                   [Click SaveButton;
                    Rerender {| focusedDream :=
                                  {| _id := "d2"; content := "A longer corridor";
                                     story := None; status := Some pending;
                                     analysis := None |};
                                allDreams := three_dreams |}])).
Proof.
  apply (save_then_reload quiet_env some_props _ (editing "A longer corridor"));
    reflexivity.
Defined.

(** ** Closing *)

Lemma step_close_calls (env : Env) (props : Props) (st : State) (ev : Event) :
  filter is_close (snd (step env (props, st) ev))
  = match ev with
    | Click target => if reaches_backdrop props target then [OnClose] else []
    | _ => []
    end.
Proof.
  destruct ev as [target|deltaY|value|props']; cbn [step].
  - rewrite (surjective_pairing (click env props st target)). cbn [snd].
    rewrite (click_result env props st target). cbv zeta.
    destruct target; cbn [snd reaches_backdrop];
      repeat match goal with
             | |- context [if ?b then _ else _] => destruct b
             | |- context [match failure ?r with Some _ => _ | None => _ end] =>
                 destruct (failure r)
             | |- context [match ?r with Throws _ => _ | Returns _ => _ end] =>
                 destruct r as [?|[|?]]
             end; reflexivity.
  - rewrite run_handler_wheel. reflexivity.
  - destruct (textarea_rendered props st); reflexivity.
  - destruct (_ && _); reflexivity.
Qed.

Lemma step_props_of (env : Env) (props : Props) (st : State) (ev : Event) :
  fst (fst (step env (props, st) ev))
  = match ev with Rerender props' => props' | _ => props end.
Proof.
  destruct ev as [target|deltaY|value|props']; cbn [step].
  - destruct (click env props st target); reflexivity.
  - rewrite run_handler_wheel. reflexivity.
  - destruct (textarea_rendered props st); reflexivity.
  - destruct (_ && _); reflexivity.
Qed.

(** X8. Over any sequence of events, [onClose] is called once for each
    click that reaches the backdrop: a click on the backdrop, on a
    container of the toolbar, or on an arrow that is disabled when the
    click comes; and never otherwise: no wheel event, typing, save,
    regeneration, navigation by an enabled arrow or change of props closes
    the view. *)
Theorem close_calls_are_closing_clicks (env : Env) (props : Props) (st : State)
        (evs : list Event) :
  filter is_close (snd (run env (props, st) evs))
  = repeat OnClose (closing_clicks props evs).
Proof.
  revert props st. induction evs as [|ev evs IH]; intros props st; cbn [run].
  - reflexivity.
  - pose proof (step_close_calls env props st ev) as Hs.
    pose proof (step_props_of env props st ev) as Hp.
    destruct (step env (props, st) ev) as [[props1 st1] effs]. cbn [fst snd] in *.
    specialize (IH props1 st1).
    destruct (run env (props1, st1) evs) as [ps2 effs2]. cbn [snd] in *.
    rewrite filter_app, Hs, IH, Hp.
    destruct ev as [target|deltaY|value|props']; cbn [closing_clicks app];
      try reflexivity.
    destruct (reaches_backdrop props target); reflexivity.
Qed.

(** ** The life of a focused view *)

Lemma set_scale_same (st : State) : set_scale (scale st) st = st.
Proof. destruct st; reflexivity. Qed.

(** With the handlers and the one listener of the state itself, an event
    is handled as [step] handles it. *)
Lemma handle_rendered (env : Env) (props : Props) (st : State) (b : Browser)
      (ev : Event) (id : nat) :
  wheel_listeners b = [{| listener_id := id; captured_scale := scale st |}] ->
  is_rerender ev = false ->
  handle env props st st b ev
  = (snd (fst (step env (props, st) ev)), snd (step env (props, st) ev)).
Proof.
  intros Hw Hev. destruct ev as [target|deltaY|value|props']; try discriminate Hev;
    cbn [handle step].
  - change (dispatch_click env props st st target) with (click env props st target).
    destruct (click env props st target); reflexivity.
  - rewrite Hw. cbn [dispatch_wheel fold_left captured_scale].
    rewrite set_scale_same, run_handler_wheel. reflexivity.
  - destruct (textarea_rendered props st); reflexivity.
Qed.

(** A wheel event through one listener starts from the scale that the
    listener closes over. *)
Lemma dispatch_wheel_one (seen st : State) (deltaY : JS.number) (k : WheelListener) :
  dispatch_wheel seen st deltaY [k]
  = with_zoom (wheel_scale (captured_scale k) deltaY) st.
Proof. reflexivity. Qed.

Lemma commit_wheel_registered (old new : JS.number) (h : Handles) (b : Browser) :
  wheel_listeners b = [{| listener_id := wheel_handler h; captured_scale := old |}] ->
  let r := commit_wheel old new h b in
  wheel_listeners (snd r)
  = [{| listener_id := wheel_handler (fst r); captured_scale := new |}]
  /\ resize_listeners (snd r) = resize_listeners b
  /\ timeouts (snd r) = timeouts b
  /\ backdrop_timer (fst r) = backdrop_timer h
  /\ animation_timer (fst r) = animation_timer h
  /\ resize_handler (fst r) = resize_handler h.
Proof.
  intros Hw. cbv zeta. unfold commit_wheel.
  destruct (PrimFloat.Leibniz.eqb old new) eqn:E.
  - apply FloatAxioms.Leibniz.eqb_spec in E. subst new. cbn [fst snd].
    repeat split. exact Hw.
  - unfold addWheelListener, removeWheelListener.
    cbn [fst snd wheel_listeners resize_listeners timeouts next_id wheel_handler
         backdrop_timer animation_timer resize_handler].
    rewrite Hw. cbn [filter listener_id]. rewrite Nat.eqb_refl. cbn [negb app].
    repeat split.
Qed.

(** What a render and its commit leave: the props and the state of [step]
    on new props, the handlers and the wheel listener of the state that was
    rendered, and the rest as it was. *)
Lemma render_registered (env : Env) (props' : Props) (l : Life) (ps : Props * State) :
  current l = Some ps ->
  wheel_listeners (browser l)
  = [{| listener_id := wheel_handler (handles l);
        captured_scale := scale (rendered l) |}] ->
  let l' := render props' l in
  current l' = Some (fst (step env ps (Rerender props')))
  /\ rendered l' = snd ps
  /\ wheel_listeners (browser l')
     = [{| listener_id := wheel_handler (handles l');
           captured_scale := scale (snd ps) |}]
  /\ resize_listeners (browser l') = resize_listeners (browser l)
  /\ timeouts (browser l') = timeouts (browser l)
  /\ backdrop_timer (handles l') = backdrop_timer (handles l)
  /\ animation_timer (handles l') = animation_timer (handles l)
  /\ resize_handler (handles l') = resize_handler (handles l)
  /\ entrance l' = entrance l
  /\ log l' = log l
  /\ late_updates l' = late_updates l.
Proof.
  intros Hc Hw. destruct ps as [props st]. cbv zeta. unfold render. rewrite Hc.
  pose proof (commit_wheel_registered (scale (rendered l)) (scale st)
                (handles l) (browser l) Hw) as Hcw. cbv zeta in Hcw.
  destruct (commit_wheel _ _ _ _) as [h' b']. cbn [fst snd] in Hcw.
  destruct Hcw as [H1 [H2 [H3 [H4 [H5 H6]]]]].
  cbn [current rendered browser handles entrance log late_updates fst snd step].
  repeat split; try assumption.
  destruct (_ && _); reflexivity.
Qed.

(** A render with the props that the view has leaves the props and the
    state. *)
Lemma step_same_props (env : Env) (props : Props) (st : State) :
  step env (props, st) (Rerender props) = ((props, st), []).
Proof. cbn [step]. rewrite !String.eqb_refl. reflexivity. Qed.

(** What an event that is neither a timeout, a resize nor the unmount
    leaves as it was. *)
Lemma step_frame (env : Env) (l : Life) (ev : LifeEvent) :
  match ev with UI _ | Render => True | _ => False end ->
  well_registered l ->
  let l' := life_step env l ev in
  well_registered l'
  /\ entrance l' = entrance l
  /\ backdrop_timer (handles l') = backdrop_timer (handles l)
  /\ animation_timer (handles l') = animation_timer (handles l).
Proof.
  intros Hev [ps [Hc [Hw [Hr [Ht [Hne Hl]]]]]]. cbv zeta.
  assert (Hrender : forall props',
             well_registered (render props' l)
             /\ entrance (render props' l) = entrance l
             /\ backdrop_timer (handles (render props' l)) = backdrop_timer (handles l)
             /\ animation_timer (handles (render props' l))
                = animation_timer (handles l)).
  { intros props'.
    destruct (render_registered env props' l ps Hc Hw)
      as [R1 [R2 [R3 [R4 [R5 [R6 [R7 [R8 [R9 [R10 R11]]]]]]]]]].
    split; [|repeat split; assumption].
    exists (fst (step env ps (Rerender props'))).
    rewrite R2, R4, R5, R6, R7, R8, R9, R11. repeat split; assumption. }
  destruct ev as [ev| |id|h|ref]; try contradiction; cbn [life_step].
  - destruct ev as [target|deltaY|value|props']; try apply Hrender;
      rewrite Hc; destruct ps as [props st];
      destruct (handle env props (rendered l) st (browser l) _) as [st' effs];
      (split; [exists (props, st'); repeat split; assumption | repeat split]).
  - rewrite Hc. destruct ps as [props st]. apply Hrender.
Qed.

Lemma step_well_registered (env : Env) (l : Life) (ev : LifeEvent) :
  is_unmount ev = false -> well_registered l -> well_registered (life_step env l ev).
Proof.
  intros Hu H.
  destruct ev as [ev| |id|h|ref]; try discriminate Hu;
    try (apply (step_frame env l); [exact I | exact H]);
    destruct H as [ps [Hc [Hw [Hr [Ht [Hne Hl]]]]]]; cbn [life_step].
  - rewrite Ht.
    destruct (isBackdropVisible (entrance l)) eqn:Eb,
             (isAnimatingIn (entrance l)) eqn:Ea;
      cbn [app find timeout_id];
      repeat match goal with
             | |- context [(?x =? id)%nat] => destruct (Nat.eqb_spec x id)
             end;
      try (exists ps; repeat split; try assumption; rewrite ?Ht, ?Eb, ?Ea; reflexivity);
      try (exfalso; congruence);
      rewrite Hc; exists ps;
      cbn [current rendered browser handles entrance late_updates clearTimeout
           timeouts wheel_listeners resize_listeners set_flag timeout_sets
           isBackdropVisible isAnimatingIn];
      rewrite Ht, ?Eb, ?Ea; cbn [app filter timeout_id];
      repeat match goal with
             | |- context [(?x =? ?y)%nat] => destruct (Nat.eqb_spec x y)
             end;
      cbn [negb]; repeat split; try assumption; try reflexivity; try congruence.
  - exists ps. cbn [current rendered browser handles entrance late_updates].
    rewrite Hr, Hc. cbn [fold_left calculateMaxHeight isBackdropVisible isAnimatingIn].
    repeat split; assumption.
Qed.

Lemma mount_well_registered (props : Props) (h : JS.number) :
  well_registered (life_mount props h).
Proof.
  exists (mount props). cbn. repeat split. discriminate.
Qed.

Lemma run_well_registered (env : Env) (evs : list LifeEvent) (l : Life) :
  forallb (fun ev => negb (is_unmount ev)) evs = true ->
  well_registered l -> well_registered (life_run env l evs).
Proof.
  revert l. induction evs as [|ev evs IH]; intros l Hevs H; cbn [life_run fold_left].
  - exact H.
  - cbn [forallb] in Hevs. apply andb_prop in Hevs. destruct Hevs as [Hev Hevs].
    apply negb_true_iff in Hev.
    apply (IH _ Hevs), (step_well_registered env l ev Hev H).
Qed.

(** Two wheel events with no render between them do not add up: both run
    the listener of the last render, which starts from 1. With a render
    between them the second starts from the scale that the first left. *)
Example wheels_before_a_render :
  let l0 := life_mount some_props 900%float in
  option_map (fun ps => scale (snd ps))
             (current (life_run quiet_env l0 [UI (Wheel 1%float); UI (Wheel 1%float)]))
  = Some 0.85%float
  /\ option_map (fun ps => scale (snd ps))
                (current (life_run quiet_env l0
                                   [UI (Wheel 1%float); Render; UI (Wheel 1%float)]))
     = Some 0.7%float.
Proof. split; reflexivity. Qed.

(** X9. While the view is mounted, after any events of its life, the zoom
    control carries exactly one wheel listener and the window exactly one
    resize listener of the view. The wheel listener closes over the scale
    of the last render: a render replaces it by one that closes over the
    current scale, and until then a wheel event sets the scale from the
    scale of the last render, whatever was queued since. *)
Theorem one_wheel_listener_per_render (env : Env) (props : Props) (h : JS.number)
        (evs : list LifeEvent) :
  forallb (fun ev => negb (is_unmount ev)) evs = true ->
  let l := life_run env (life_mount props h) evs in
  exists ps,
    current l = Some ps
    /\ map captured_scale (wheel_listeners (browser l)) = [scale (rendered l)]
    /\ List.length (resize_listeners (browser l)) = 1%nat
    /\ map captured_scale (wheel_listeners (browser (life_step env l Render)))
       = [scale (snd ps)]
    /\ forall deltaY,
         current (life_step env l (UI (Wheel deltaY)))
         = Some (fst ps,
                 with_zoom (wheel_scale (scale (rendered l)) deltaY) (snd ps)).
Proof.
  intros Hevs l.
  destruct (run_well_registered env evs _ Hevs (mount_well_registered props h))
    as [ps [Hc [Hw [Hr _]]]].
  exists ps. fold l in Hc, Hw, Hr. rewrite Hw, Hr.
  split; [exact Hc|]. split; [reflexivity|]. split; [reflexivity|]. split.
  - cbn [life_step]. rewrite Hc. destruct ps as [props1 st1].
    destruct (render_registered env props1 l (props1, st1) Hc Hw)
      as [_ [_ [R3 _]]].
    rewrite R3. reflexivity.
  - intros deltaY. cbn [life_step]. rewrite Hc. destruct ps as [props1 st1].
    cbn [handle]. rewrite Hw, dispatch_wheel_one. reflexivity.
Qed.

Lemma one_wheel_listener_per_render_witness :
  map captured_scale
      (wheel_listeners
         (browser (life_run quiet_env (life_mount some_props 900%float)
                            [UI (Wheel 1%float); UI (Click ZoomControl);
                             TimeoutFires 0; Render; UI (Wheel (-1)%float)])))
  = [1.5%float].
Proof.
  destruct (one_wheel_listener_per_render quiet_env some_props 900%float
              [UI (Wheel 1%float); UI (Click ZoomControl);
               TimeoutFires 0; Render; UI (Wheel (-1)%float)] eq_refl)
    as [ps [_ [Hw _]]].
  rewrite Hw. reflexivity.
Defined.

Lemma step_refines (env : Env) (l : Life) (ev : LifeEvent) (ps : Props * State)
      (pending : bool) :
  is_unmount ev = false -> finds_fresh_handlers pending ev = true ->
  well_registered l -> current l = Some ps ->
  (pending = false -> rendered l = snd ps) ->
  let l' := life_step env l ev in
  let ps' := fst (run env ps (ui_events [ev])) in
  current l' = Some ps'
  /\ log l' = (log l ++ snd (run env ps (ui_events [ev])))%list
  /\ (waits_for_render pending ev = false -> rendered l' = snd ps').
Proof.
  intros Hu Hf [ps0 [Hc0 [Hw _]]] Hc Hp. rewrite Hc in Hc0. injection Hc0 as <-.
  cbv zeta.
  destruct ev as [ev| |id|h|ref]; try discriminate Hu;
    cbn [life_step ui_events run waits_for_render].
  - destruct ev as [target|deltaY|value|props'].
    4: { destruct (render_registered env props' l ps Hc Hw)
           as [R1 [_ [_ [_ [_ [_ [_ [_ [_ [R10 _]]]]]]]]]].
         rewrite R1, R10. destruct ps as [props st]. cbn [step].
         destruct (_ && _); cbn [fst snd app]; rewrite app_nil_r;
           (split; [reflexivity|]); (split; [reflexivity|]); discriminate. }
    all: cbn [finds_fresh_handlers] in Hf; apply negb_true_iff in Hf;
      specialize (Hp Hf); rewrite Hc; destruct ps as [props st];
      cbn [snd] in Hp; rewrite Hp in *;
      rewrite (fun ev => handle_rendered env props st (browser l) ev _ Hw)
        by reflexivity;
      match goal with
      | |- context [step ?en ?p ?e] =>
          pose proof (step_props_of en props st e) as Hprops;
          destruct (step en p e) as [[props1 st1] effs]
      end; cbn [fst snd] in *; subst props1; cbn [current log rendered];
      rewrite app_nil_r; (split; [reflexivity|]); (split; [reflexivity|]);
      discriminate.
  - destruct ps as [props st]. rewrite Hc.
    destruct (render_registered env props l (props, st) Hc Hw)
      as [R1 [R2 [_ [_ [_ [_ [_ [_ [_ [R10 _]]]]]]]]]].
    rewrite R1, R2, R10, step_same_props. cbn [fst snd]. rewrite app_nil_r.
    repeat split.
  - cbn [fst snd]. rewrite app_nil_r.
    destruct (find _ _); cbn [current log rendered];
      (split; [exact Hc|]); (split; [reflexivity|]); exact Hp.
  - cbn [current log rendered fst snd]. rewrite app_nil_r.
    split; [exact Hc|]. split; [reflexivity | exact Hp].
Qed.

Lemma run_refines (env : Env) (evs : list LifeEvent) (l : Life) (ps : Props * State)
      (pending : bool) :
  forallb (fun ev => negb (is_unmount ev)) evs = true ->
  rendered_in_time pending evs = true ->
  well_registered l -> current l = Some ps ->
  (pending = false -> rendered l = snd ps) ->
  current (life_run env l evs) = Some (fst (run env ps (ui_events evs)))
  /\ log (life_run env l evs) = (log l ++ snd (run env ps (ui_events evs)))%list.
Proof.
  revert l ps pending.
  induction evs as [|ev evs IH]; intros l ps pending Hevs Hin H Hc Hp.
  - cbn. rewrite app_nil_r. split; [exact Hc | reflexivity].
  - cbn [forallb] in Hevs. apply andb_prop in Hevs. destruct Hevs as [Hev Hevs].
    apply negb_true_iff in Hev.
    cbn [rendered_in_time] in Hin. apply andb_prop in Hin. destruct Hin as [Hf Hin].
    destruct (step_refines env l ev ps pending Hev Hf H Hc Hp) as [Hc1 [Hl1 Hp1]].
    pose proof (step_well_registered env l ev Hev H) as H1.
    destruct (IH _ _ _ Hevs Hin H1 Hc1 Hp1) as [Hc2 Hl2].
    cbn [life_run fold_left]. fold (life_run env (life_step env l ev) evs).
    rewrite Hc2, Hl2, Hl1.
    replace (ui_events (ev :: evs)) with (ui_events [ev] ++ ui_events evs)%list
      by (destruct ev; reflexivity).
    rewrite (run_app env (ui_events [ev]) (ui_events evs) ps). cbn [fst snd].
    rewrite app_assoc. split; reflexivity.
Qed.

(** X10. While the view is mounted and rendered between any two of its
    events, its props, its state and the calls it has made are those of
    its events handled one by one, each on the state that the one before
    left: the native wheel listener then does what the handler of the
    element does, and the timeouts and the resizes of the window change
    nothing of it. *)
Theorem life_refines_run (env : Env) (props : Props) (h : JS.number)
        (evs : list LifeEvent) :
  forallb (fun ev => negb (is_unmount ev)) evs = true ->
  rendered_in_time false evs = true ->
  let l := life_run env (life_mount props h) evs in
  current l = Some (fst (run env (mount props) (ui_events evs)))
  /\ log l = snd (run env (mount props) (ui_events evs)).
Proof.
  intros Hevs Hin l.
  exact (run_refines env evs _ (mount props) false Hevs Hin
                     (mount_well_registered props h) eq_refl (fun _ => eq_refl)).
Qed.

Lemma life_refines_run_witness :
  current (life_run failing_env (life_mount some_props 900%float)
                    [UI (Wheel 1%float); WindowResize 700%float; Render;
                     UI (Wheel 1%float); Render; UI (Click RegenerateButton)])
  = Some (fst (run failing_env (mount some_props)
                   [Wheel 1%float; Wheel 1%float; Click RegenerateButton])).
Proof.
  apply (life_refines_run failing_env some_props 900%float
           [UI (Wheel 1%float); WindowResize 700%float; Render;
            UI (Wheel 1%float); Render; UI (Click RegenerateButton)]);
    reflexivity.
Defined.

Lemma step_flags (env : Env) (l : Life) (ev : LifeEvent) :
  is_unmount ev = false -> well_registered l ->
  isBackdropVisible (entrance (life_step env l ev))
  = isBackdropVisible (entrance l) || fires (backdrop_timer (handles l)) ev
  /\ isAnimatingIn (entrance (life_step env l ev))
     = isAnimatingIn (entrance l) || fires (animation_timer (handles l)) ev
  /\ backdrop_timer (handles (life_step env l ev)) = backdrop_timer (handles l)
  /\ animation_timer (handles (life_step env l ev)) = animation_timer (handles l).
Proof.
  intros Hu H.
  assert (Hframe : forall ev',
             match ev' with UI _ | Render => True | _ => False end ->
             fires (backdrop_timer (handles l)) ev' = false ->
             fires (animation_timer (handles l)) ev' = false ->
             isBackdropVisible (entrance (life_step env l ev'))
             = isBackdropVisible (entrance l) || fires (backdrop_timer (handles l)) ev'
             /\ isAnimatingIn (entrance (life_step env l ev'))
                = isAnimatingIn (entrance l) || fires (animation_timer (handles l)) ev'
             /\ backdrop_timer (handles (life_step env l ev'))
                = backdrop_timer (handles l)
             /\ animation_timer (handles (life_step env l ev'))
                = animation_timer (handles l)).
  { intros ev' Hev' Fb Fa.
    destruct (step_frame env l ev' Hev' H) as [_ [He [Hb Ha]]].
    cbv zeta in He, Hb, Ha. rewrite He, Hb, Ha, Fb, Fa, !orb_false_r.
    repeat split. }
  destruct ev as [ev| |id|h|ref]; try discriminate Hu;
    try (apply Hframe; [exact I | reflexivity | reflexivity]);
    destruct H as [ps [Hc [Hw [Hr [Ht [Hne Hl]]]]]]; cbn [life_step fires].
  - rewrite Ht, Hc.
    destruct (isBackdropVisible (entrance l)) eqn:Eb,
             (isAnimatingIn (entrance l)) eqn:Ea;
      cbn [app find timeout_id];
      repeat match goal with
             | |- context [(?x =? ?y)%nat] => destruct (Nat.eqb_spec x y)
             end;
      cbn [entrance handles set_flag timeout_sets isBackdropVisible isAnimatingIn orb];
      rewrite ?Eb, ?Ea; repeat split; try reflexivity; exfalso; congruence.
  - cbn [entrance handles]. rewrite Hr, Hc. cbn [fold_left calculateMaxHeight
      isBackdropVisible isAnimatingIn]. rewrite !orb_false_r. repeat split.
Qed.

Lemma run_flags (env : Env) (evs : list LifeEvent) (l : Life) :
  forallb (fun ev => negb (is_unmount ev)) evs = true -> well_registered l ->
  isBackdropVisible (entrance (life_run env l evs))
  = isBackdropVisible (entrance l) || existsb (fires (backdrop_timer (handles l))) evs
  /\ isAnimatingIn (entrance (life_run env l evs))
     = isAnimatingIn (entrance l) || existsb (fires (animation_timer (handles l))) evs.
Proof.
  revert l. induction evs as [|ev evs IH]; intros l Hevs H.
  - cbn. rewrite !orb_false_r. split; reflexivity.
  - cbn [forallb] in Hevs. apply andb_prop in Hevs. destruct Hevs as [Hev Hevs].
    apply negb_true_iff in Hev.
    destruct (step_flags env l ev Hev H) as [Hb [Ha [Htb Hta]]].
    destruct (IH _ Hevs (step_well_registered env l ev Hev H)) as [Hb' Ha'].
    cbn [life_run fold_left existsb]. fold (life_run env (life_step env l ev) evs).
    rewrite Hb', Ha', Hb, Ha, Htb, Hta, !orb_assoc. split; reflexivity.
Qed.

(** X11. The backdrop and the card enter when their timeouts run: while
    the view is mounted, each of the two flags of the entrance is true
    exactly when its own timeout has run, and the timeouts still pending
    are those of the flags still false. Neither flag goes back to false and
    no other event sets one. *)
Theorem entrance_flags_follow_timeouts (env : Env) (props : Props) (h : JS.number)
        (evs : list LifeEvent) :
  forallb (fun ev => negb (is_unmount ev)) evs = true ->
  let l0 := life_mount props h in
  let l := life_run env l0 evs in
  isBackdropVisible (entrance l)
  = existsb (fires (backdrop_timer (handles l0))) evs
  /\ isAnimatingIn (entrance l)
     = existsb (fires (animation_timer (handles l0))) evs
  /\ map timeout_sets (timeouts (browser l))
     = ((if isBackdropVisible (entrance l) then [] else [BackdropVisible])
        ++ (if isAnimatingIn (entrance l) then [] else [AnimatingIn]))%list.
Proof.
  intros Hevs l0 l.
  destruct (run_flags env evs l0 Hevs (mount_well_registered props h)) as [Hb Ha].
  destruct (run_well_registered env evs l0 Hevs (mount_well_registered props h))
    as [ps [_ [_ [_ [Ht _]]]]].
  fold l in Hb, Ha, Ht. split; [exact Hb|]. split; [exact Ha|].
  rewrite Ht. destruct (isBackdropVisible (entrance l)), (isAnimatingIn (entrance l));
    reflexivity.
Qed.

Lemma entrance_flags_follow_timeouts_witness :
  isBackdropVisible
    (entrance (life_run quiet_env (life_mount some_props 900%float)
                        [UI (Click EditButton); TimeoutFires 0; TimeoutFires 7]))
  = true.
Proof.
  apply (entrance_flags_follow_timeouts quiet_env some_props 900%float
           [UI (Click EditButton); TimeoutFires 0; TimeoutFires 7]).
  reflexivity.
Defined.

Lemma step_height (env : Env) (l : Life) (ev : LifeEvent) :
  is_unmount ev = false -> well_registered l ->
  cardMaxHeight (entrance (life_step env l ev))
  = match ev with
    | WindowResize h => Some (h * 0.85)%float
    | _ => cardMaxHeight (entrance l)
    end.
Proof.
  intros Hu H.
  assert (Hframe : forall ev',
             match ev' with UI _ | Render => True | _ => False end ->
             cardMaxHeight (entrance (life_step env l ev'))
             = cardMaxHeight (entrance l)).
  { intros ev' Hev'. destruct (step_frame env l ev' Hev' H) as [_ [He _]].
    cbv zeta in He. rewrite He. reflexivity. }
  destruct ev as [ev| |id|h|ref]; try discriminate Hu;
    try (apply Hframe; exact I);
    destruct H as [ps [Hc [Hw [Hr [Ht [Hne Hl]]]]]]; cbn [life_step].
  - destruct (find _ _) as [t|]; [|reflexivity]. rewrite Hc. cbn [entrance].
    destruct (timeout_sets t); reflexivity.
  - cbn [entrance]. rewrite Hr, Hc. reflexivity.
Qed.

Lemma run_height (env : Env) (evs : list LifeEvent) (l : Life) (h : JS.number) :
  forallb (fun ev => negb (is_unmount ev)) evs = true -> well_registered l ->
  cardMaxHeight (entrance l) = Some (h * 0.85)%float ->
  cardMaxHeight (entrance (life_run env l evs))
  = Some (last_height h evs * 0.85)%float.
Proof.
  revert l h. induction evs as [|ev evs IH]; intros l h Hevs H Hh.
  - exact Hh.
  - cbn [forallb] in Hevs. apply andb_prop in Hevs. destruct Hevs as [Hev Hevs].
    apply negb_true_iff in Hev.
    pose proof (step_height env l ev Hev H) as Hs.
    pose proof (step_well_registered env l ev Hev H) as H1.
    cbn [life_run fold_left]. fold (life_run env (life_step env l ev) evs).
    destruct ev as [ev| |id|h'|ref]; try discriminate Hev; cbn [last_height];
      apply (IH _ _ Hevs H1); rewrite Hs; try exact Hh; reflexivity.
Qed.

(** X12. While the view is mounted, the maximal height of the card is 0.85
    times the height of the viewport at the last resize of the window, or
    at mount when the window was not resized; no other event changes
    it. *)
Theorem max_height_follows_viewport (env : Env) (props : Props) (h : JS.number)
        (evs : list LifeEvent) :
  forallb (fun ev => negb (is_unmount ev)) evs = true ->
  cardMaxHeight (entrance (life_run env (life_mount props h) evs))
  = Some (last_height h evs * 0.85)%float.
Proof.
  intros Hevs.
  apply (run_height env evs _ h Hevs (mount_well_registered props h)). reflexivity.
Qed.

Lemma max_height_follows_viewport_witness :
  cardMaxHeight
    (entrance (life_run quiet_env (life_mount some_props 900%float)
                        [WindowResize 600%float; UI (Wheel 1%float);
                         WindowResize 800%float; TimeoutFires 3]))
  = Some 680%float.
Proof.
  rewrite (max_height_follows_viewport quiet_env some_props 900%float
             [WindowResize 600%float; UI (Wheel 1%float);
              WindowResize 800%float; TimeoutFires 3] eq_refl).
  reflexivity.
Defined.




(** ** The card and its clicks *)

(** X14. A click on the delete button of a card, or on its icon, calls
    [onDelete] with the identifier of the record and does not call
    [onFocus]; a click in the content area calls [onFocus] and not
    [onDelete]; a click on the header or on the padding of the card calls
    neither. No click makes more than one call. *)
Theorem card_click_calls (dream : Dream) (target : CardElement) :
  (forall id, In (OnDelete id) (card_click dream target)
              <-> id = _id dream /\ In target [DeleteButton; DeleteIcon])
  /\ (In OnFocus (card_click dream target)
      <-> In target [CardContent; CardContentChild])
  /\ (List.length (card_click dream target) <= 1)%nat.
Proof.
  split; [|split].
  - intros id. destruct target; cbn; split;
      try (intros [H|[]]; try discriminate H; injection H as <-; tauto);
      try (intros []; fail);
      try (intros [Hid Hin]; subst id; tauto);
      try (intros [_ Hin]; repeat (destruct Hin as [Hin|Hin]; try discriminate Hin);
           contradiction).
  - destruct target; cbn; split; intros H;
      repeat (destruct H as [H|H]; try discriminate H); try contradiction; tauto.
  - destruct target; cbn; lia.
Qed.

(** ** What the two components show *)

Lemma existsb_interp (p : Node -> bool) (f : Field) (o : option string) :
  existsb p (interp f o) = match o with Some s => p (Interp f s) | None => false end.
Proof. destruct o; cbn; rewrite ?orb_false_r; reflexivity. Qed.


(** X16. For a record that is not pending, a story that is missing or
    empty is reported where the story would be: the card shows its
    fallback text exactly when neither the story nor the title is a
    non-empty string, and the focused view shows both of its notices
    exactly when the story is not a non-empty string, with the title of the
    record or, when that is missing or empty, "Dream Details". *)
Theorem missing_story_is_reported (dream : Dream) (all : list Dream) (st : State) :
  is_pending dream = false ->
  let c := DreamCard dream in
  let v := card (FocusedDreamView {| focusedDream := dream; allDreams := all |} st) in
  (In card_fallback c
   <-> JS.truthy (story dream) = false /\ JS.truthy (analysis_title dream) = false)
  /\ (In card_fallback c -> c = [card_fallback])
  /\ (In story_missing v <-> JS.truthy (story dream) = false)
  /\ (In story_failed v <-> JS.truthy (story dream) = false)
  /\ (In (Text "Dream Details") v <-> JS.truthy (analysis_title dream) = false)
  /\ (renders_field FTitle v = JS.truthy (analysis_title dream)).
Proof.
  intros Hp. cbv zeta. unfold DreamCard. cbn [FocusedDreamView card].
  unfold card_content, card_fallback, story_missing, story_failed, renders_field.
  cbn [focusedDream]. rewrite Hp. cbn [negb andb app].
  destruct (story dream) as [s|]; cbn [JS.truthy];
    [destruct (String.eqb s "") eqn:Es; cbn [negb orb]|];
    destruct (analysis_title dream) as [t|]; cbn [JS.truthy];
    try (destruct (String.eqb t "") eqn:Et; cbn [negb orb]);
    destruct (isEditing st);
    cbn [interp app existsb is_field orb negb andb In];
    repeat split; intros; try reflexivity; try tauto; try discriminate;
    repeat match goal with
           | H : _ \/ _ |- _ => destruct H
           | H : _ /\ _ |- _ => destruct H
           | H : False |- _ => destruct H
           end; try discriminate; tauto.
Qed.

Lemma missing_story_is_reported_witness :
  In story_failed
     (card (FocusedDreamView {| focusedDream := a_bare_dream; allDreams := three_dreams |}
                             (initial last_of_three)))
  /\ DreamCard a_bare_dream = [card_fallback].
Proof.
  destruct (missing_story_is_reported a_bare_dream three_dreams (initial last_of_three)
              eq_refl) as [Hc [Hone [_ [Hf _]]]].
  split; [apply Hf; reflexivity|]. apply Hone, Hc. split; reflexivity.
Defined.

(** ** Calls over a sequence of events *)

Lemma step_props (env : Env) (props : Props) (st : State) (ev : Event) :
  is_rerender ev = false -> fst (fst (step env (props, st) ev)) = props.
Proof.
  destruct ev as [target|deltaY|value|props']; try discriminate; intros _; cbn [step].
  - destruct (click env props st target); reflexivity.
  - rewrite run_handler_wheel. reflexivity.
  - destruct (textarea_rendered props st); reflexivity.
Qed.

Lemma step_navigate_calls (env : Env) (props : Props) (st : State) (ev : Event) :
  filter (is_navigate prev) (snd (step env (props, st) ev))
  = (if negb (isFirst props) then
       match ev with Click PrevButton => [OnNavigate prev] | _ => [] end
     else [])
  /\ filter (is_navigate next) (snd (step env (props, st) ev))
     = (if negb (isLast props) then
          match ev with Click NextButton => [OnNavigate next] | _ => [] end
        else []).
Proof.
  destruct ev as [target|deltaY|value|props']; cbn [step].
  - rewrite (surjective_pairing (click env props st target)). cbn [snd].
    rewrite (click_result env props st target). cbv zeta.
    destruct (isFirst props), (isLast props); destruct target; cbn [snd negb];
      repeat match goal with
             | |- context [if ?b then _ else _] => destruct b
             | |- context [match failure ?r with Some _ => _ | None => _ end] =>
                 destruct (failure r)
             | |- context [match ?r with Throws _ => _ | Returns _ => _ end] =>
                 destruct r as [?|[|?]]
             end; split; reflexivity.
  - rewrite run_handler_wheel.
    destruct (isFirst props), (isLast props); split; reflexivity.
  - destruct (textarea_rendered props st), (isFirst props), (isLast props);
      split; reflexivity.
  - destruct (_ && _), (isFirst props), (isLast props); split; reflexivity.
Qed.

(** X17. As long as the props stay the same, the arrows do nothing at the
    ends of the list: with the focused record first, no sequence of events
    calls [onNavigate] with "prev", and with it last (or with an empty
    list), none calls it with "next". *)
Theorem no_navigation_past_the_ends (env : Env) (props : Props) (st : State)
        (evs : list Event) :
  forallb (fun ev => negb (is_rerender ev)) evs = true ->
  (isFirst props = true ->
   filter (is_navigate prev) (snd (run env (props, st) evs)) = [])
  /\ (isLast props = true ->
      filter (is_navigate next) (snd (run env (props, st) evs)) = []).
Proof.
  revert st. induction evs as [|ev evs IH]; intros st Hevs; cbn [run].
  - split; reflexivity.
  - cbn [forallb] in Hevs. apply andb_prop in Hevs. destruct Hevs as [Hev Hevs].
    apply negb_true_iff in Hev.
    pose proof (step_props env props st ev Hev) as Hp.
    destruct (step_navigate_calls env props st ev) as [Hprev Hnext].
    destruct (step env (props, st) ev) as [[props1 st1] effs]. cbn [fst snd] in *.
    subst props1. destruct (IH st1 Hevs) as [IHp IHn].
    destruct (run env (props, st1) evs) as [ps2 effs2]. cbn [snd] in *.
    split; intros H; rewrite filter_app.
    + rewrite Hprev, H, (IHp H). reflexivity.
    + rewrite Hnext, H, (IHn H). reflexivity.
Qed.

Lemma no_navigation_past_the_ends_witness :
  filter (is_navigate next)
         (snd (run quiet_env (mount last_of_three)
                   [Click NextButton; Click PrevButton; Click NextButton]))
  = [].
Proof.
  apply (no_navigation_past_the_ends quiet_env last_of_three (initial last_of_three)
           [Click NextButton; Click PrevButton; Click NextButton] eq_refl).
  reflexivity.
Defined.

Lemma step_generate_calls (env : Env) (ps : Props * State) (ev : Event) :
  filter is_generate (snd (step env ps ev))
  = if is_regenerate_click ev then [GenerateStory (_id (focusedDream (fst ps)))]
    else [].
Proof.
  destruct ps as [props st]. destruct ev as [target|deltaY|value|props']; cbn [step].
  - rewrite (surjective_pairing (click env props st target)). cbn [snd].
    rewrite (click_result env props st target). cbv zeta.
    destruct target; cbn [snd is_regenerate_click fst];
      repeat match goal with
             | |- context [if ?b then _ else _] => destruct b
             | |- context [match failure ?r with Some _ => _ | None => _ end] =>
                 destruct (failure r)
             | |- context [match ?r with Throws _ => _ | Returns _ => _ end] =>
                 destruct r as [?|[|?]]
             end; reflexivity.
  - rewrite run_handler_wheel. reflexivity.
  - destruct (textarea_rendered props st); reflexivity.
  - destruct (_ && _); reflexivity.
Qed.

(** X18. Every click on the regenerate button calls the generation action,
    once, whatever the state of the view and of the record: also while the
    record is pending, while a text is being edited, and after a call that
    failed. Nothing else calls it. *)
Theorem every_regenerate_click_calls (env : Env) (ps : Props * State)
        (evs : list Event) :
  List.length (filter is_generate (snd (run env ps evs)))
  = List.length (filter is_regenerate_click evs).
Proof.
  revert ps. induction evs as [|ev evs IH]; intros ps; cbn [run].
  - reflexivity.
  - pose proof (step_generate_calls env ps ev) as Hs.
    destruct (step env ps ev) as [ps' effs]. cbn [snd] in Hs.
    specialize (IH ps'). destruct (run env ps' evs) as [ps'' effs']. cbn [snd] in *.
    rewrite filter_app, length_app, Hs, IH. cbn [filter].
    destruct (is_regenerate_click ev); reflexivity.
Qed.

Lemma step_without_edit (env : Env) (ps : Props * State) (ev : Event) :
  is_edit_click ev = false -> isEditing (snd ps) = false ->
  isEditing (snd (fst (step env ps ev))) = false
  /\ filter is_mutation (snd (step env ps ev)) = []
  /\ editedContent (snd (fst (step env ps ev)))
     = match ev with
       | Rerender props' =>
           if (content (focusedDream props') =? content (focusedDream (fst ps)))%string
              && (_id (focusedDream props') =? _id (focusedDream (fst ps)))%string
           then editedContent (snd ps)
           else content (focusedDream props')
       | _ => editedContent (snd ps)
       end.
Proof.
  destruct ps as [props st]. cbn [fst snd]. intros Hev He.
  destruct ev as [target|deltaY|value|props']; cbn [step].
  - rewrite (surjective_pairing (click env props st target)). cbn [fst snd].
    rewrite (click_result env props st target). cbv zeta. rewrite He.
    destruct target; try discriminate Hev; cbn [fst snd];
      repeat match goal with
             | |- context [if ?b then _ else _] => destruct b
             | |- context [match ?r with Throws _ => _ | Returns _ => _ end] =>
                 destruct r as [?|[|?]]
             end; repeat split; try exact He; reflexivity.
  - rewrite run_handler_wheel. repeat split. exact He.
  - rewrite textarea_rendered_iff, He, andb_false_r. repeat split. exact He.
  - destruct (_ && _); repeat split. exact He.
Qed.

(** X19. Without a click on the edit button the view never enters edit
    mode, so that nothing can be typed and the mutation is never called:
    after any other events from mount the view is not editing, shows no
    text area, has made no call to the mutation, and holds in its buffer
    the content of the focused record. *)
Theorem nothing_saved_without_edit (env : Env) (props : Props) (evs : list Event) :
  forallb (fun ev => negb (is_edit_click ev)) evs = true ->
  let r := run env (mount props) evs in
  isEditing (snd (fst r)) = false
  /\ textarea_rendered (fst (fst r)) (snd (fst r)) = false
  /\ filter is_mutation (snd r) = []
  /\ seeded (fst r).
Proof.
  intros Hevs. cbv zeta.
  assert (H : forall ps,
             isEditing (snd ps) = false -> seeded ps ->
             isEditing (snd (fst (run env ps evs))) = false
             /\ filter is_mutation (snd (run env ps evs)) = []
             /\ seeded (fst (run env ps evs))).
  { induction evs as [|ev evs IH]; intros ps He Hs; cbn [run].
    - repeat split; assumption.
    - cbn [forallb] in Hevs. apply andb_prop in Hevs. destruct Hevs as [Hev Hevs].
      apply negb_true_iff in Hev.
      destruct (step_without_edit env ps ev Hev He) as [He1 [Hm1 Hb1]].
      assert (Hs1 : seeded (fst (step env ps ev))).
      { destruct ev as [target|deltaY|value|props'];
          try (apply step_seeded; [reflexivity | exact Hs]).
        destruct ps as [props0 st0]. unfold seeded in *. cbn [fst snd] in *.
        cbn [step]. rewrite textarea_rendered_iff, He, andb_false_r. exact Hs. }
      destruct (step env ps ev) as [ps1 effs1]. cbn [fst snd] in *.
      destruct (IH Hevs ps1 He1 Hs1) as [He2 [Hm2 Hs2]].
      destruct (run env ps1 evs) as [ps2 effs2]. cbn [fst snd] in *.
      rewrite filter_app, Hm1, Hm2. repeat split; assumption. }
  destruct (H (mount props) eq_refl eq_refl) as [He [Hm Hs]].
  rewrite textarea_rendered_iff, He, andb_false_r. repeat split; assumption.
Qed.

Lemma nothing_saved_without_edit_witness :
  filter is_mutation
         (snd (run quiet_env (mount some_props)
                   [Click SaveButton; Change "x"; Click RegenerateButton;
                    Click SaveButton]))
  = [].
Proof.
  apply (nothing_saved_without_edit quiet_env some_props
           [Click SaveButton; Change "x"; Click RegenerateButton; Click SaveButton]).
  reflexivity.
Defined.

(** X20. The save handler does not compare the buffer with the record: in
    a seeded view, a click on edit followed at once by a click on save
    calls the mutation with the content that the record already has. *)
Theorem save_without_change_still_calls (env : Env) (props : Props) (st : State) :
  seeded (props, st) -> isEditing st = false ->
  hd_error (snd (run env (props, st) [Click EditButton; Click SaveButton]))
  = Some (UpdateDreamContent (_id (focusedDream props))
                             (content (focusedDream props))).
Proof.
  unfold seeded. cbn [fst snd]. intros Hs He. cbn [run step].
  rewrite (click_result env props st EditButton). cbv beta iota zeta.
  rewrite He. cbn [negb run step]. rewrite click_result. cbv beta iota zeta.
  cbn [isEditing set_isEditing editedContent]. rewrite Hs.
  destruct (failure _); reflexivity.
Qed.

Lemma save_without_change_still_calls_witness :
  hd_error (snd (run quiet_env (mount some_props) [Click EditButton; Click SaveButton]))
  = Some (UpdateDreamContent "d2" "A long corridor").
Proof.
  exact (save_without_change_still_calls quiet_env some_props (initial some_props)
           eq_refl eq_refl).
Defined.
